(** * agentic_appsec: tools, flag server, scripts and the agent executor

    A shallow embedding of the repository's own code
    ([agents/tools/http_tools.py], [flagserver/server.py],
    [scripts/agentic_basic.py], [agents/recon.py] and
    [scripts/langgraph_react_ssrf.py]) together with models of what that
    code calls and the repository does not hold: the case mappings of
    Python's [str], the request handler of [http.server], and the executor
    loop of the agent framework as the scripts configure it.

    Part I holds the definitions, Part II the properties. *)

From Stdlib Require Import String Ascii List Bool Arith NArith ZArith Lia DecimalString.
Import ListNotations.
Open Scope list_scope.
Open Scope string_scope.

(* ================================================================== *)
(** * Part I: definitions                                              *)
(* ================================================================== *)

(** ** Text helpers (byte strings) *)
Module Text.

Definition nl : string := String (ascii_of_nat 10) EmptyString.
Definition cr : string := String (ascii_of_nat 13) EmptyString.

(** [sep.join(parts)] *)
Fixpoint join (sep : string) (parts : list string) : string :=
  match parts with
  | [] => ""
  | [p] => p
  | p :: rest => p ++ sep ++ join sep rest
  end.

(** [s.split(sep)] for a one-character separator: [acc] is the piece being
    read, in reverse. *)
Fixpoint rev_string (acc s : string) : string :=
  match s with
  | EmptyString => acc
  | String c r => rev_string (String c acc) r
  end.

Fixpoint split_on (sep : ascii) (acc : string) (s : string) : list string :=
  match s with
  | EmptyString => [rev_string "" acc]
  | String c r =>
      if Ascii.eqb c sep then rev_string "" acc :: split_on sep "" r
      else split_on sep (String c acc) r
  end.

Definition split (sep : ascii) (s : string) : list string := split_on sep "" s.

End Text.

(** ** Python [str] and its case mappings *)
Module Unicode.

(** A Python [str]: its code points, in order. *)
Definition str : Type := list N.

(** The [str] of a literal of the source that holds ASCII only. *)
Definition codes (s : string) : str :=
  map N_of_ascii (list_ascii_of_string s).

Fixpoint str_eqb (a b : str) : bool :=
  match a, b with
  | [], [] => true
  | x :: a', y :: b' => N.eqb x y && str_eqb a' b'
  | _, _ => false
  end.

Definition uppercase_0 : list (N * list N) :=
  [(97, [65]); (98, [66]); (99, [67]); (100, [68]); (101, [69]);
   (102, [70]); (103, [71]); (104, [72]); (105, [73]); (106, [74]);
   (107, [75]); (108, [76]); (109, [77]); (110, [78]); (111, [79]);
   (112, [80]); (113, [81]); (114, [82]); (115, [83]); (116, [84]);
   (117, [85]); (118, [86]); (119, [87]); (120, [88]); (121, [89]);
   (122, [90]); (181, [924]); (223, [83; 83]); (224, [192]); (225, [193]);
   (226, [194]); (227, [195]); (228, [196]); (229, [197]); (230, [198]);
   (231, [199]); (232, [200]); (233, [201]); (234, [202]); (235, [203]);
   (236, [204]); (237, [205]); (238, [206]); (239, [207]); (240, [208]);
   (241, [209]); (242, [210]); (243, [211]); (244, [212]); (245, [213]);
   (246, [214]); (248, [216]); (249, [217]); (250, [218]); (251, [219]);
   (252, [220]); (253, [221]); (254, [222]); (255, [376]); (257, [256]);
   (259, [258]); (261, [260]); (263, [262]); (265, [264]); (267, [266]);
   (269, [268]); (271, [270]); (273, [272]); (275, [274]); (277, [276]);
   (279, [278]); (281, [280]); (283, [282]); (285, [284]); (287, [286]);
   (289, [288]); (291, [290]); (293, [292]); (295, [294]); (297, [296]);
   (299, [298]); (301, [300]); (303, [302]); (305, [73]); (307, [306]);
   (309, [308]); (311, [310]); (314, [313]); (316, [315]); (318, [317]);
   (320, [319]); (322, [321]); (324, [323]); (326, [325]); (328, [327]);
   (329, [700; 78])]%N.

Definition uppercase_1 : list (N * list N) :=
  [(331, [330]); (333, [332]); (335, [334]); (337, [336]); (339, [338]);
   (341, [340]); (343, [342]); (345, [344]); (347, [346]); (349, [348]);
   (351, [350]); (353, [352]); (355, [354]); (357, [356]); (359, [358]);
   (361, [360]); (363, [362]); (365, [364]); (367, [366]); (369, [368]);
   (371, [370]); (373, [372]); (375, [374]); (378, [377]); (380, [379]);
   (382, [381]); (383, [83]); (384, [579]); (387, [386]); (389, [388]);
   (392, [391]); (396, [395]); (402, [401]); (405, [502]); (409, [408]);
   (410, [573]); (414, [544]); (417, [416]); (419, [418]); (421, [420]);
   (424, [423]); (429, [428]); (432, [431]); (436, [435]); (438, [437]);
   (441, [440]); (445, [444]); (447, [503]); (453, [452]); (454, [452]);
   (456, [455]); (457, [455]); (459, [458]); (460, [458]); (462, [461]);
   (464, [463]); (466, [465]); (468, [467]); (470, [469]); (472, [471]);
   (474, [473]); (476, [475]); (477, [398]); (479, [478]); (481, [480]);
   (483, [482]); (485, [484]); (487, [486]); (489, [488]); (491, [490]);
   (493, [492]); (495, [494]); (496, [74; 780]); (498, [497]); (499, [497]);
   (501, [500]); (505, [504]); (507, [506]); (509, [508]); (511, [510]);
   (513, [512]); (515, [514]); (517, [516]); (519, [518]); (521, [520]);
   (523, [522]); (525, [524]); (527, [526]); (529, [528]); (531, [530]);
   (533, [532]); (535, [534]); (537, [536]); (539, [538]); (541, [540]);
   (543, [542])]%N.

Definition uppercase_2 : list (N * list N) :=
  [(547, [546]); (549, [548]); (551, [550]); (553, [552]); (555, [554]);
   (557, [556]); (559, [558]); (561, [560]); (563, [562]); (572, [571]);
   (575, [11390]); (576, [11391]); (578, [577]); (583, [582]); (585, [584]);
   (587, [586]); (589, [588]); (591, [590]); (592, [11375]); (593, [11373]);
   (594, [11376]); (595, [385]); (596, [390]); (598, [393]); (599, [394]);
   (601, [399]); (603, [400]); (604, [42923]); (608, [403]); (609, [42924]);
   (611, [404]); (613, [42893]); (614, [42922]); (616, [407]); (617, [406]);
   (618, [42926]); (619, [11362]); (620, [42925]); (623, [412]); (625, [11374]);
   (626, [413]); (629, [415]); (637, [11364]); (640, [422]); (642, [42949]);
   (643, [425]); (647, [42929]); (648, [430]); (649, [580]); (650, [433]);
   (651, [434]); (652, [581]); (658, [439]); (669, [42930]); (670, [42928]);
   (837, [921]); (881, [880]); (883, [882]); (887, [886]); (891, [1021]);
   (892, [1022]); (893, [1023]); (912, [921; 776; 769]); (940, [902]); (941, [904]);
   (942, [905]); (943, [906]); (944, [933; 776; 769]); (945, [913]); (946, [914]);
   (947, [915]); (948, [916]); (949, [917]); (950, [918]); (951, [919]);
   (952, [920]); (953, [921]); (954, [922]); (955, [923]); (956, [924]);
   (957, [925]); (958, [926]); (959, [927]); (960, [928]); (961, [929]);
   (962, [931]); (963, [931]); (964, [932]); (965, [933]); (966, [934]);
   (967, [935]); (968, [936]); (969, [937]); (970, [938]); (971, [939]);
   (972, [908])]%N.

Definition uppercase_3 : list (N * list N) :=
  [(973, [910]); (974, [911]); (976, [914]); (977, [920]); (981, [934]);
   (982, [928]); (983, [975]); (985, [984]); (987, [986]); (989, [988]);
   (991, [990]); (993, [992]); (995, [994]); (997, [996]); (999, [998]);
   (1001, [1000]); (1003, [1002]); (1005, [1004]); (1007, [1006]); (1008, [922]);
   (1009, [929]); (1010, [1017]); (1011, [895]); (1013, [917]); (1016, [1015]);
   (1019, [1018]); (1072, [1040]); (1073, [1041]); (1074, [1042]); (1075, [1043]);
   (1076, [1044]); (1077, [1045]); (1078, [1046]); (1079, [1047]); (1080, [1048]);
   (1081, [1049]); (1082, [1050]); (1083, [1051]); (1084, [1052]); (1085, [1053]);
   (1086, [1054]); (1087, [1055]); (1088, [1056]); (1089, [1057]); (1090, [1058]);
   (1091, [1059]); (1092, [1060]); (1093, [1061]); (1094, [1062]); (1095, [1063]);
   (1096, [1064]); (1097, [1065]); (1098, [1066]); (1099, [1067]); (1100, [1068]);
   (1101, [1069]); (1102, [1070]); (1103, [1071]); (1104, [1024]); (1105, [1025]);
   (1106, [1026]); (1107, [1027]); (1108, [1028]); (1109, [1029]); (1110, [1030]);
   (1111, [1031]); (1112, [1032]); (1113, [1033]); (1114, [1034]); (1115, [1035]);
   (1116, [1036]); (1117, [1037]); (1118, [1038]); (1119, [1039]); (1121, [1120]);
   (1123, [1122]); (1125, [1124]); (1127, [1126]); (1129, [1128]); (1131, [1130]);
   (1133, [1132]); (1135, [1134]); (1137, [1136]); (1139, [1138]); (1141, [1140]);
   (1143, [1142]); (1145, [1144]); (1147, [1146]); (1149, [1148]); (1151, [1150]);
   (1153, [1152]); (1163, [1162]); (1165, [1164]); (1167, [1166]); (1169, [1168]);
   (1171, [1170])]%N.

Definition uppercase_4 : list (N * list N) :=
  [(1173, [1172]); (1175, [1174]); (1177, [1176]); (1179, [1178]); (1181, [1180]);
   (1183, [1182]); (1185, [1184]); (1187, [1186]); (1189, [1188]); (1191, [1190]);
   (1193, [1192]); (1195, [1194]); (1197, [1196]); (1199, [1198]); (1201, [1200]);
   (1203, [1202]); (1205, [1204]); (1207, [1206]); (1209, [1208]); (1211, [1210]);
   (1213, [1212]); (1215, [1214]); (1218, [1217]); (1220, [1219]); (1222, [1221]);
   (1224, [1223]); (1226, [1225]); (1228, [1227]); (1230, [1229]); (1231, [1216]);
   (1233, [1232]); (1235, [1234]); (1237, [1236]); (1239, [1238]); (1241, [1240]);
   (1243, [1242]); (1245, [1244]); (1247, [1246]); (1249, [1248]); (1251, [1250]);
   (1253, [1252]); (1255, [1254]); (1257, [1256]); (1259, [1258]); (1261, [1260]);
   (1263, [1262]); (1265, [1264]); (1267, [1266]); (1269, [1268]); (1271, [1270]);
   (1273, [1272]); (1275, [1274]); (1277, [1276]); (1279, [1278]); (1281, [1280]);
   (1283, [1282]); (1285, [1284]); (1287, [1286]); (1289, [1288]); (1291, [1290]);
   (1293, [1292]); (1295, [1294]); (1297, [1296]); (1299, [1298]); (1301, [1300]);
   (1303, [1302]); (1305, [1304]); (1307, [1306]); (1309, [1308]); (1311, [1310]);
   (1313, [1312]); (1315, [1314]); (1317, [1316]); (1319, [1318]); (1321, [1320]);
   (1323, [1322]); (1325, [1324]); (1327, [1326]); (1377, [1329]); (1378, [1330]);
   (1379, [1331]); (1380, [1332]); (1381, [1333]); (1382, [1334]); (1383, [1335]);
   (1384, [1336]); (1385, [1337]); (1386, [1338]); (1387, [1339]); (1388, [1340]);
   (1389, [1341]); (1390, [1342]); (1391, [1343]); (1392, [1344]); (1393, [1345]);
   (1394, [1346])]%N.

Definition uppercase_5 : list (N * list N) :=
  [(1395, [1347]); (1396, [1348]); (1397, [1349]); (1398, [1350]); (1399, [1351]);
   (1400, [1352]); (1401, [1353]); (1402, [1354]); (1403, [1355]); (1404, [1356]);
   (1405, [1357]); (1406, [1358]); (1407, [1359]); (1408, [1360]); (1409, [1361]);
   (1410, [1362]); (1411, [1363]); (1412, [1364]); (1413, [1365]); (1414, [1366]);
   (1415, [1333; 1362]); (4304, [7312]); (4305, [7313]); (4306, [7314]); (4307, [7315]);
   (4308, [7316]); (4309, [7317]); (4310, [7318]); (4311, [7319]); (4312, [7320]);
   (4313, [7321]); (4314, [7322]); (4315, [7323]); (4316, [7324]); (4317, [7325]);
   (4318, [7326]); (4319, [7327]); (4320, [7328]); (4321, [7329]); (4322, [7330]);
   (4323, [7331]); (4324, [7332]); (4325, [7333]); (4326, [7334]); (4327, [7335]);
   (4328, [7336]); (4329, [7337]); (4330, [7338]); (4331, [7339]); (4332, [7340]);
   (4333, [7341]); (4334, [7342]); (4335, [7343]); (4336, [7344]); (4337, [7345]);
   (4338, [7346]); (4339, [7347]); (4340, [7348]); (4341, [7349]); (4342, [7350]);
   (4343, [7351]); (4344, [7352]); (4345, [7353]); (4346, [7354]); (4349, [7357]);
   (4350, [7358]); (4351, [7359]); (5112, [5104]); (5113, [5105]); (5114, [5106]);
   (5115, [5107]); (5116, [5108]); (5117, [5109]); (7296, [1042]); (7297, [1044]);
   (7298, [1054]); (7299, [1057]); (7300, [1058]); (7301, [1058]); (7302, [1066]);
   (7303, [1122]); (7304, [42570]); (7545, [42877]); (7549, [11363]); (7566, [42950]);
   (7681, [7680]); (7683, [7682]); (7685, [7684]); (7687, [7686]); (7689, [7688]);
   (7691, [7690]); (7693, [7692]); (7695, [7694]); (7697, [7696]); (7699, [7698]);
   (7701, [7700])]%N.

Definition uppercase_6 : list (N * list N) :=
  [(7703, [7702]); (7705, [7704]); (7707, [7706]); (7709, [7708]); (7711, [7710]);
   (7713, [7712]); (7715, [7714]); (7717, [7716]); (7719, [7718]); (7721, [7720]);
   (7723, [7722]); (7725, [7724]); (7727, [7726]); (7729, [7728]); (7731, [7730]);
   (7733, [7732]); (7735, [7734]); (7737, [7736]); (7739, [7738]); (7741, [7740]);
   (7743, [7742]); (7745, [7744]); (7747, [7746]); (7749, [7748]); (7751, [7750]);
   (7753, [7752]); (7755, [7754]); (7757, [7756]); (7759, [7758]); (7761, [7760]);
   (7763, [7762]); (7765, [7764]); (7767, [7766]); (7769, [7768]); (7771, [7770]);
   (7773, [7772]); (7775, [7774]); (7777, [7776]); (7779, [7778]); (7781, [7780]);
   (7783, [7782]); (7785, [7784]); (7787, [7786]); (7789, [7788]); (7791, [7790]);
   (7793, [7792]); (7795, [7794]); (7797, [7796]); (7799, [7798]); (7801, [7800]);
   (7803, [7802]); (7805, [7804]); (7807, [7806]); (7809, [7808]); (7811, [7810]);
   (7813, [7812]); (7815, [7814]); (7817, [7816]); (7819, [7818]); (7821, [7820]);
   (7823, [7822]); (7825, [7824]); (7827, [7826]); (7829, [7828]); (7830, [72; 817]);
   (7831, [84; 776]); (7832, [87; 778]); (7833, [89; 778]); (7834, [65; 702]); (7835, [7776]);
   (7841, [7840]); (7843, [7842]); (7845, [7844]); (7847, [7846]); (7849, [7848]);
   (7851, [7850]); (7853, [7852]); (7855, [7854]); (7857, [7856]); (7859, [7858]);
   (7861, [7860]); (7863, [7862]); (7865, [7864]); (7867, [7866]); (7869, [7868]);
   (7871, [7870]); (7873, [7872]); (7875, [7874]); (7877, [7876]); (7879, [7878]);
   (7881, [7880]); (7883, [7882]); (7885, [7884]); (7887, [7886]); (7889, [7888]);
   (7891, [7890])]%N.

Definition uppercase_7 : list (N * list N) :=
  [(7893, [7892]); (7895, [7894]); (7897, [7896]); (7899, [7898]); (7901, [7900]);
   (7903, [7902]); (7905, [7904]); (7907, [7906]); (7909, [7908]); (7911, [7910]);
   (7913, [7912]); (7915, [7914]); (7917, [7916]); (7919, [7918]); (7921, [7920]);
   (7923, [7922]); (7925, [7924]); (7927, [7926]); (7929, [7928]); (7931, [7930]);
   (7933, [7932]); (7935, [7934]); (7936, [7944]); (7937, [7945]); (7938, [7946]);
   (7939, [7947]); (7940, [7948]); (7941, [7949]); (7942, [7950]); (7943, [7951]);
   (7952, [7960]); (7953, [7961]); (7954, [7962]); (7955, [7963]); (7956, [7964]);
   (7957, [7965]); (7968, [7976]); (7969, [7977]); (7970, [7978]); (7971, [7979]);
   (7972, [7980]); (7973, [7981]); (7974, [7982]); (7975, [7983]); (7984, [7992]);
   (7985, [7993]); (7986, [7994]); (7987, [7995]); (7988, [7996]); (7989, [7997]);
   (7990, [7998]); (7991, [7999]); (8000, [8008]); (8001, [8009]); (8002, [8010]);
   (8003, [8011]); (8004, [8012]); (8005, [8013]); (8016, [933; 787]); (8017, [8025]);
   (8018, [933; 787; 768]); (8019, [8027]); (8020, [933; 787; 769]); (8021, [8029]); (8022, [933; 787; 834]);
   (8023, [8031]); (8032, [8040]); (8033, [8041]); (8034, [8042]); (8035, [8043]);
   (8036, [8044]); (8037, [8045]); (8038, [8046]); (8039, [8047]); (8048, [8122]);
   (8049, [8123]); (8050, [8136]); (8051, [8137]); (8052, [8138]); (8053, [8139]);
   (8054, [8154]); (8055, [8155]); (8056, [8184]); (8057, [8185]); (8058, [8170]);
   (8059, [8171]); (8060, [8186]); (8061, [8187]); (8064, [7944; 921]); (8065, [7945; 921]);
   (8066, [7946; 921]); (8067, [7947; 921]); (8068, [7948; 921]); (8069, [7949; 921]); (8070, [7950; 921]);
   (8071, [7951; 921])]%N.

Definition uppercase_8 : list (N * list N) :=
  [(8072, [7944; 921]); (8073, [7945; 921]); (8074, [7946; 921]); (8075, [7947; 921]); (8076, [7948; 921]);
   (8077, [7949; 921]); (8078, [7950; 921]); (8079, [7951; 921]); (8080, [7976; 921]); (8081, [7977; 921]);
   (8082, [7978; 921]); (8083, [7979; 921]); (8084, [7980; 921]); (8085, [7981; 921]); (8086, [7982; 921]);
   (8087, [7983; 921]); (8088, [7976; 921]); (8089, [7977; 921]); (8090, [7978; 921]); (8091, [7979; 921]);
   (8092, [7980; 921]); (8093, [7981; 921]); (8094, [7982; 921]); (8095, [7983; 921]); (8096, [8040; 921]);
   (8097, [8041; 921]); (8098, [8042; 921]); (8099, [8043; 921]); (8100, [8044; 921]); (8101, [8045; 921]);
   (8102, [8046; 921]); (8103, [8047; 921]); (8104, [8040; 921]); (8105, [8041; 921]); (8106, [8042; 921]);
   (8107, [8043; 921]); (8108, [8044; 921]); (8109, [8045; 921]); (8110, [8046; 921]); (8111, [8047; 921]);
   (8112, [8120]); (8113, [8121]); (8114, [8122; 921]); (8115, [913; 921]); (8116, [902; 921]);
   (8118, [913; 834]); (8119, [913; 834; 921]); (8124, [913; 921]); (8126, [921]); (8130, [8138; 921]);
   (8131, [919; 921]); (8132, [905; 921]); (8134, [919; 834]); (8135, [919; 834; 921]); (8140, [919; 921]);
   (8144, [8152]); (8145, [8153]); (8146, [921; 776; 768]); (8147, [921; 776; 769]); (8150, [921; 834]);
   (8151, [921; 776; 834]); (8160, [8168]); (8161, [8169]); (8162, [933; 776; 768]); (8163, [933; 776; 769]);
   (8164, [929; 787]); (8165, [8172]); (8166, [933; 834]); (8167, [933; 776; 834]); (8178, [8186; 921]);
   (8179, [937; 921]); (8180, [911; 921]); (8182, [937; 834]); (8183, [937; 834; 921]); (8188, [937; 921]);
   (8526, [8498]); (8560, [8544]); (8561, [8545]); (8562, [8546]); (8563, [8547]);
   (8564, [8548]); (8565, [8549]); (8566, [8550]); (8567, [8551]); (8568, [8552]);
   (8569, [8553]); (8570, [8554]); (8571, [8555]); (8572, [8556]); (8573, [8557]);
   (8574, [8558]); (8575, [8559]); (8580, [8579]); (9424, [9398]); (9425, [9399]);
   (9426, [9400])]%N.

Definition uppercase_9 : list (N * list N) :=
  [(9427, [9401]); (9428, [9402]); (9429, [9403]); (9430, [9404]); (9431, [9405]);
   (9432, [9406]); (9433, [9407]); (9434, [9408]); (9435, [9409]); (9436, [9410]);
   (9437, [9411]); (9438, [9412]); (9439, [9413]); (9440, [9414]); (9441, [9415]);
   (9442, [9416]); (9443, [9417]); (9444, [9418]); (9445, [9419]); (9446, [9420]);
   (9447, [9421]); (9448, [9422]); (9449, [9423]); (11312, [11264]); (11313, [11265]);
   (11314, [11266]); (11315, [11267]); (11316, [11268]); (11317, [11269]); (11318, [11270]);
   (11319, [11271]); (11320, [11272]); (11321, [11273]); (11322, [11274]); (11323, [11275]);
   (11324, [11276]); (11325, [11277]); (11326, [11278]); (11327, [11279]); (11328, [11280]);
   (11329, [11281]); (11330, [11282]); (11331, [11283]); (11332, [11284]); (11333, [11285]);
   (11334, [11286]); (11335, [11287]); (11336, [11288]); (11337, [11289]); (11338, [11290]);
   (11339, [11291]); (11340, [11292]); (11341, [11293]); (11342, [11294]); (11343, [11295]);
   (11344, [11296]); (11345, [11297]); (11346, [11298]); (11347, [11299]); (11348, [11300]);
   (11349, [11301]); (11350, [11302]); (11351, [11303]); (11352, [11304]); (11353, [11305]);
   (11354, [11306]); (11355, [11307]); (11356, [11308]); (11357, [11309]); (11358, [11310]);
   (11359, [11311]); (11361, [11360]); (11365, [570]); (11366, [574]); (11368, [11367]);
   (11370, [11369]); (11372, [11371]); (11379, [11378]); (11382, [11381]); (11393, [11392]);
   (11395, [11394]); (11397, [11396]); (11399, [11398]); (11401, [11400]); (11403, [11402]);
   (11405, [11404]); (11407, [11406]); (11409, [11408]); (11411, [11410]); (11413, [11412]);
   (11415, [11414]); (11417, [11416]); (11419, [11418]); (11421, [11420]); (11423, [11422]);
   (11425, [11424])]%N.

Definition uppercase_10 : list (N * list N) :=
  [(11427, [11426]); (11429, [11428]); (11431, [11430]); (11433, [11432]); (11435, [11434]);
   (11437, [11436]); (11439, [11438]); (11441, [11440]); (11443, [11442]); (11445, [11444]);
   (11447, [11446]); (11449, [11448]); (11451, [11450]); (11453, [11452]); (11455, [11454]);
   (11457, [11456]); (11459, [11458]); (11461, [11460]); (11463, [11462]); (11465, [11464]);
   (11467, [11466]); (11469, [11468]); (11471, [11470]); (11473, [11472]); (11475, [11474]);
   (11477, [11476]); (11479, [11478]); (11481, [11480]); (11483, [11482]); (11485, [11484]);
   (11487, [11486]); (11489, [11488]); (11491, [11490]); (11500, [11499]); (11502, [11501]);
   (11507, [11506]); (11520, [4256]); (11521, [4257]); (11522, [4258]); (11523, [4259]);
   (11524, [4260]); (11525, [4261]); (11526, [4262]); (11527, [4263]); (11528, [4264]);
   (11529, [4265]); (11530, [4266]); (11531, [4267]); (11532, [4268]); (11533, [4269]);
   (11534, [4270]); (11535, [4271]); (11536, [4272]); (11537, [4273]); (11538, [4274]);
   (11539, [4275]); (11540, [4276]); (11541, [4277]); (11542, [4278]); (11543, [4279]);
   (11544, [4280]); (11545, [4281]); (11546, [4282]); (11547, [4283]); (11548, [4284]);
   (11549, [4285]); (11550, [4286]); (11551, [4287]); (11552, [4288]); (11553, [4289]);
   (11554, [4290]); (11555, [4291]); (11556, [4292]); (11557, [4293]); (11559, [4295]);
   (11565, [4301]); (42561, [42560]); (42563, [42562]); (42565, [42564]); (42567, [42566]);
   (42569, [42568]); (42571, [42570]); (42573, [42572]); (42575, [42574]); (42577, [42576]);
   (42579, [42578]); (42581, [42580]); (42583, [42582]); (42585, [42584]); (42587, [42586]);
   (42589, [42588]); (42591, [42590]); (42593, [42592]); (42595, [42594]); (42597, [42596]);
   (42599, [42598])]%N.

Definition uppercase_11 : list (N * list N) :=
  [(42601, [42600]); (42603, [42602]); (42605, [42604]); (42625, [42624]); (42627, [42626]);
   (42629, [42628]); (42631, [42630]); (42633, [42632]); (42635, [42634]); (42637, [42636]);
   (42639, [42638]); (42641, [42640]); (42643, [42642]); (42645, [42644]); (42647, [42646]);
   (42649, [42648]); (42651, [42650]); (42787, [42786]); (42789, [42788]); (42791, [42790]);
   (42793, [42792]); (42795, [42794]); (42797, [42796]); (42799, [42798]); (42803, [42802]);
   (42805, [42804]); (42807, [42806]); (42809, [42808]); (42811, [42810]); (42813, [42812]);
   (42815, [42814]); (42817, [42816]); (42819, [42818]); (42821, [42820]); (42823, [42822]);
   (42825, [42824]); (42827, [42826]); (42829, [42828]); (42831, [42830]); (42833, [42832]);
   (42835, [42834]); (42837, [42836]); (42839, [42838]); (42841, [42840]); (42843, [42842]);
   (42845, [42844]); (42847, [42846]); (42849, [42848]); (42851, [42850]); (42853, [42852]);
   (42855, [42854]); (42857, [42856]); (42859, [42858]); (42861, [42860]); (42863, [42862]);
   (42874, [42873]); (42876, [42875]); (42879, [42878]); (42881, [42880]); (42883, [42882]);
   (42885, [42884]); (42887, [42886]); (42892, [42891]); (42897, [42896]); (42899, [42898]);
   (42900, [42948]); (42903, [42902]); (42905, [42904]); (42907, [42906]); (42909, [42908]);
   (42911, [42910]); (42913, [42912]); (42915, [42914]); (42917, [42916]); (42919, [42918]);
   (42921, [42920]); (42933, [42932]); (42935, [42934]); (42937, [42936]); (42939, [42938]);
   (42941, [42940]); (42943, [42942]); (42945, [42944]); (42947, [42946]); (42952, [42951]);
   (42954, [42953]); (42961, [42960]); (42967, [42966]); (42969, [42968]); (42998, [42997]);
   (43859, [42931]); (43888, [5024]); (43889, [5025]); (43890, [5026]); (43891, [5027]);
   (43892, [5028])]%N.

Definition uppercase_12 : list (N * list N) :=
  [(43893, [5029]); (43894, [5030]); (43895, [5031]); (43896, [5032]); (43897, [5033]);
   (43898, [5034]); (43899, [5035]); (43900, [5036]); (43901, [5037]); (43902, [5038]);
   (43903, [5039]); (43904, [5040]); (43905, [5041]); (43906, [5042]); (43907, [5043]);
   (43908, [5044]); (43909, [5045]); (43910, [5046]); (43911, [5047]); (43912, [5048]);
   (43913, [5049]); (43914, [5050]); (43915, [5051]); (43916, [5052]); (43917, [5053]);
   (43918, [5054]); (43919, [5055]); (43920, [5056]); (43921, [5057]); (43922, [5058]);
   (43923, [5059]); (43924, [5060]); (43925, [5061]); (43926, [5062]); (43927, [5063]);
   (43928, [5064]); (43929, [5065]); (43930, [5066]); (43931, [5067]); (43932, [5068]);
   (43933, [5069]); (43934, [5070]); (43935, [5071]); (43936, [5072]); (43937, [5073]);
   (43938, [5074]); (43939, [5075]); (43940, [5076]); (43941, [5077]); (43942, [5078]);
   (43943, [5079]); (43944, [5080]); (43945, [5081]); (43946, [5082]); (43947, [5083]);
   (43948, [5084]); (43949, [5085]); (43950, [5086]); (43951, [5087]); (43952, [5088]);
   (43953, [5089]); (43954, [5090]); (43955, [5091]); (43956, [5092]); (43957, [5093]);
   (43958, [5094]); (43959, [5095]); (43960, [5096]); (43961, [5097]); (43962, [5098]);
   (43963, [5099]); (43964, [5100]); (43965, [5101]); (43966, [5102]); (43967, [5103]);
   (64256, [70; 70]); (64257, [70; 73]); (64258, [70; 76]); (64259, [70; 70; 73]); (64260, [70; 70; 76]);
   (64261, [83; 84]); (64262, [83; 84]); (64275, [1348; 1350]); (64276, [1348; 1333]); (64277, [1348; 1339]);
   (64278, [1358; 1350]); (64279, [1348; 1341]); (65345, [65313]); (65346, [65314]); (65347, [65315]);
   (65348, [65316]); (65349, [65317]); (65350, [65318]); (65351, [65319]); (65352, [65320]);
   (65353, [65321])]%N.

Definition uppercase_13 : list (N * list N) :=
  [(65354, [65322]); (65355, [65323]); (65356, [65324]); (65357, [65325]); (65358, [65326]);
   (65359, [65327]); (65360, [65328]); (65361, [65329]); (65362, [65330]); (65363, [65331]);
   (65364, [65332]); (65365, [65333]); (65366, [65334]); (65367, [65335]); (65368, [65336]);
   (65369, [65337]); (65370, [65338]); (66600, [66560]); (66601, [66561]); (66602, [66562]);
   (66603, [66563]); (66604, [66564]); (66605, [66565]); (66606, [66566]); (66607, [66567]);
   (66608, [66568]); (66609, [66569]); (66610, [66570]); (66611, [66571]); (66612, [66572]);
   (66613, [66573]); (66614, [66574]); (66615, [66575]); (66616, [66576]); (66617, [66577]);
   (66618, [66578]); (66619, [66579]); (66620, [66580]); (66621, [66581]); (66622, [66582]);
   (66623, [66583]); (66624, [66584]); (66625, [66585]); (66626, [66586]); (66627, [66587]);
   (66628, [66588]); (66629, [66589]); (66630, [66590]); (66631, [66591]); (66632, [66592]);
   (66633, [66593]); (66634, [66594]); (66635, [66595]); (66636, [66596]); (66637, [66597]);
   (66638, [66598]); (66639, [66599]); (66776, [66736]); (66777, [66737]); (66778, [66738]);
   (66779, [66739]); (66780, [66740]); (66781, [66741]); (66782, [66742]); (66783, [66743]);
   (66784, [66744]); (66785, [66745]); (66786, [66746]); (66787, [66747]); (66788, [66748]);
   (66789, [66749]); (66790, [66750]); (66791, [66751]); (66792, [66752]); (66793, [66753]);
   (66794, [66754]); (66795, [66755]); (66796, [66756]); (66797, [66757]); (66798, [66758]);
   (66799, [66759]); (66800, [66760]); (66801, [66761]); (66802, [66762]); (66803, [66763]);
   (66804, [66764]); (66805, [66765]); (66806, [66766]); (66807, [66767]); (66808, [66768]);
   (66809, [66769]); (66810, [66770]); (66811, [66771]); (66967, [66928]); (66968, [66929]);
   (66969, [66930])]%N.

Definition uppercase_14 : list (N * list N) :=
  [(66970, [66931]); (66971, [66932]); (66972, [66933]); (66973, [66934]); (66974, [66935]);
   (66975, [66936]); (66976, [66937]); (66977, [66938]); (66979, [66940]); (66980, [66941]);
   (66981, [66942]); (66982, [66943]); (66983, [66944]); (66984, [66945]); (66985, [66946]);
   (66986, [66947]); (66987, [66948]); (66988, [66949]); (66989, [66950]); (66990, [66951]);
   (66991, [66952]); (66992, [66953]); (66993, [66954]); (66995, [66956]); (66996, [66957]);
   (66997, [66958]); (66998, [66959]); (66999, [66960]); (67000, [66961]); (67001, [66962]);
   (67003, [66964]); (67004, [66965]); (68800, [68736]); (68801, [68737]); (68802, [68738]);
   (68803, [68739]); (68804, [68740]); (68805, [68741]); (68806, [68742]); (68807, [68743]);
   (68808, [68744]); (68809, [68745]); (68810, [68746]); (68811, [68747]); (68812, [68748]);
   (68813, [68749]); (68814, [68750]); (68815, [68751]); (68816, [68752]); (68817, [68753]);
   (68818, [68754]); (68819, [68755]); (68820, [68756]); (68821, [68757]); (68822, [68758]);
   (68823, [68759]); (68824, [68760]); (68825, [68761]); (68826, [68762]); (68827, [68763]);
   (68828, [68764]); (68829, [68765]); (68830, [68766]); (68831, [68767]); (68832, [68768]);
   (68833, [68769]); (68834, [68770]); (68835, [68771]); (68836, [68772]); (68837, [68773]);
   (68838, [68774]); (68839, [68775]); (68840, [68776]); (68841, [68777]); (68842, [68778]);
   (68843, [68779]); (68844, [68780]); (68845, [68781]); (68846, [68782]); (68847, [68783]);
   (68848, [68784]); (68849, [68785]); (68850, [68786]); (71872, [71840]); (71873, [71841]);
   (71874, [71842]); (71875, [71843]); (71876, [71844]); (71877, [71845]); (71878, [71846]);
   (71879, [71847]); (71880, [71848]); (71881, [71849]); (71882, [71850]); (71883, [71851]);
   (71884, [71852])]%N.

Definition uppercase_15 : list (N * list N) :=
  [(71885, [71853]); (71886, [71854]); (71887, [71855]); (71888, [71856]); (71889, [71857]);
   (71890, [71858]); (71891, [71859]); (71892, [71860]); (71893, [71861]); (71894, [71862]);
   (71895, [71863]); (71896, [71864]); (71897, [71865]); (71898, [71866]); (71899, [71867]);
   (71900, [71868]); (71901, [71869]); (71902, [71870]); (71903, [71871]); (93792, [93760]);
   (93793, [93761]); (93794, [93762]); (93795, [93763]); (93796, [93764]); (93797, [93765]);
   (93798, [93766]); (93799, [93767]); (93800, [93768]); (93801, [93769]); (93802, [93770]);
   (93803, [93771]); (93804, [93772]); (93805, [93773]); (93806, [93774]); (93807, [93775]);
   (93808, [93776]); (93809, [93777]); (93810, [93778]); (93811, [93779]); (93812, [93780]);
   (93813, [93781]); (93814, [93782]); (93815, [93783]); (93816, [93784]); (93817, [93785]);
   (93818, [93786]); (93819, [93787]); (93820, [93788]); (93821, [93789]); (93822, [93790]);
   (93823, [93791]); (125218, [125184]); (125219, [125185]); (125220, [125186]); (125221, [125187]);
   (125222, [125188]); (125223, [125189]); (125224, [125190]); (125225, [125191]); (125226, [125192]);
   (125227, [125193]); (125228, [125194]); (125229, [125195]); (125230, [125196]); (125231, [125197]);
   (125232, [125198]); (125233, [125199]); (125234, [125200]); (125235, [125201]); (125236, [125202]);
   (125237, [125203]); (125238, [125204]); (125239, [125205]); (125240, [125206]); (125241, [125207]);
   (125242, [125208]); (125243, [125209]); (125244, [125210]); (125245, [125211]); (125246, [125212]);
   (125247, [125213]); (125248, [125214]); (125249, [125215]); (125250, [125216]); (125251, [125217])]%N.

(** [chr(c).upper()] for every character that [str.upper] moves, by code
    point (Unicode 14.0.0, the full mapping: one to three characters). *)
Definition uppercase : list (N * list N) :=
  concat
    [uppercase_0; uppercase_1; uppercase_2; uppercase_3;
     uppercase_4; uppercase_5; uppercase_6; uppercase_7;
     uppercase_8; uppercase_9; uppercase_10; uppercase_11;
     uppercase_12; uppercase_13; uppercase_14; uppercase_15].

Definition casefolded_0 : list (N * list N) :=
  [(65, [97]); (66, [98]); (67, [99]); (68, [100]); (69, [101]);
   (70, [102]); (71, [103]); (72, [104]); (73, [105]); (74, [106]);
   (75, [107]); (76, [108]); (77, [109]); (78, [110]); (79, [111]);
   (80, [112]); (81, [113]); (82, [114]); (83, [115]); (84, [116]);
   (85, [117]); (86, [118]); (87, [119]); (88, [120]); (89, [121]);
   (90, [122]); (181, [956]); (192, [224]); (193, [225]); (194, [226]);
   (195, [227]); (196, [228]); (197, [229]); (198, [230]); (199, [231]);
   (200, [232]); (201, [233]); (202, [234]); (203, [235]); (204, [236]);
   (205, [237]); (206, [238]); (207, [239]); (208, [240]); (209, [241]);
   (210, [242]); (211, [243]); (212, [244]); (213, [245]); (214, [246]);
   (216, [248]); (217, [249]); (218, [250]); (219, [251]); (220, [252]);
   (221, [253]); (222, [254]); (223, [115; 115]); (256, [257]); (258, [259]);
   (260, [261]); (262, [263]); (264, [265]); (266, [267]); (268, [269]);
   (270, [271]); (272, [273]); (274, [275]); (276, [277]); (278, [279]);
   (280, [281]); (282, [283]); (284, [285]); (286, [287]); (288, [289]);
   (290, [291]); (292, [293]); (294, [295]); (296, [297]); (298, [299]);
   (300, [301]); (302, [303]); (304, [105; 775]); (306, [307]); (308, [309]);
   (310, [311]); (313, [314]); (315, [316]); (317, [318]); (319, [320]);
   (321, [322]); (323, [324]); (325, [326]); (327, [328]); (329, [700; 110]);
   (330, [331])]%N.

Definition casefolded_1 : list (N * list N) :=
  [(332, [333]); (334, [335]); (336, [337]); (338, [339]); (340, [341]);
   (342, [343]); (344, [345]); (346, [347]); (348, [349]); (350, [351]);
   (352, [353]); (354, [355]); (356, [357]); (358, [359]); (360, [361]);
   (362, [363]); (364, [365]); (366, [367]); (368, [369]); (370, [371]);
   (372, [373]); (374, [375]); (376, [255]); (377, [378]); (379, [380]);
   (381, [382]); (383, [115]); (385, [595]); (386, [387]); (388, [389]);
   (390, [596]); (391, [392]); (393, [598]); (394, [599]); (395, [396]);
   (398, [477]); (399, [601]); (400, [603]); (401, [402]); (403, [608]);
   (404, [611]); (406, [617]); (407, [616]); (408, [409]); (412, [623]);
   (413, [626]); (415, [629]); (416, [417]); (418, [419]); (420, [421]);
   (422, [640]); (423, [424]); (425, [643]); (428, [429]); (430, [648]);
   (431, [432]); (433, [650]); (434, [651]); (435, [436]); (437, [438]);
   (439, [658]); (440, [441]); (444, [445]); (452, [454]); (453, [454]);
   (455, [457]); (456, [457]); (458, [460]); (459, [460]); (461, [462]);
   (463, [464]); (465, [466]); (467, [468]); (469, [470]); (471, [472]);
   (473, [474]); (475, [476]); (478, [479]); (480, [481]); (482, [483]);
   (484, [485]); (486, [487]); (488, [489]); (490, [491]); (492, [493]);
   (494, [495]); (496, [106; 780]); (497, [499]); (498, [499]); (500, [501]);
   (502, [405]); (503, [447]); (504, [505]); (506, [507]); (508, [509]);
   (510, [511])]%N.

Definition casefolded_2 : list (N * list N) :=
  [(512, [513]); (514, [515]); (516, [517]); (518, [519]); (520, [521]);
   (522, [523]); (524, [525]); (526, [527]); (528, [529]); (530, [531]);
   (532, [533]); (534, [535]); (536, [537]); (538, [539]); (540, [541]);
   (542, [543]); (544, [414]); (546, [547]); (548, [549]); (550, [551]);
   (552, [553]); (554, [555]); (556, [557]); (558, [559]); (560, [561]);
   (562, [563]); (570, [11365]); (571, [572]); (573, [410]); (574, [11366]);
   (577, [578]); (579, [384]); (580, [649]); (581, [652]); (582, [583]);
   (584, [585]); (586, [587]); (588, [589]); (590, [591]); (837, [953]);
   (880, [881]); (882, [883]); (886, [887]); (895, [1011]); (902, [940]);
   (904, [941]); (905, [942]); (906, [943]); (908, [972]); (910, [973]);
   (911, [974]); (912, [953; 776; 769]); (913, [945]); (914, [946]); (915, [947]);
   (916, [948]); (917, [949]); (918, [950]); (919, [951]); (920, [952]);
   (921, [953]); (922, [954]); (923, [955]); (924, [956]); (925, [957]);
   (926, [958]); (927, [959]); (928, [960]); (929, [961]); (931, [963]);
   (932, [964]); (933, [965]); (934, [966]); (935, [967]); (936, [968]);
   (937, [969]); (938, [970]); (939, [971]); (944, [965; 776; 769]); (962, [963]);
   (975, [983]); (976, [946]); (977, [952]); (981, [966]); (982, [960]);
   (984, [985]); (986, [987]); (988, [989]); (990, [991]); (992, [993]);
   (994, [995]); (996, [997]); (998, [999]); (1000, [1001]); (1002, [1003]);
   (1004, [1005])]%N.

Definition casefolded_3 : list (N * list N) :=
  [(1006, [1007]); (1008, [954]); (1009, [961]); (1012, [952]); (1013, [949]);
   (1015, [1016]); (1017, [1010]); (1018, [1019]); (1021, [891]); (1022, [892]);
   (1023, [893]); (1024, [1104]); (1025, [1105]); (1026, [1106]); (1027, [1107]);
   (1028, [1108]); (1029, [1109]); (1030, [1110]); (1031, [1111]); (1032, [1112]);
   (1033, [1113]); (1034, [1114]); (1035, [1115]); (1036, [1116]); (1037, [1117]);
   (1038, [1118]); (1039, [1119]); (1040, [1072]); (1041, [1073]); (1042, [1074]);
   (1043, [1075]); (1044, [1076]); (1045, [1077]); (1046, [1078]); (1047, [1079]);
   (1048, [1080]); (1049, [1081]); (1050, [1082]); (1051, [1083]); (1052, [1084]);
   (1053, [1085]); (1054, [1086]); (1055, [1087]); (1056, [1088]); (1057, [1089]);
   (1058, [1090]); (1059, [1091]); (1060, [1092]); (1061, [1093]); (1062, [1094]);
   (1063, [1095]); (1064, [1096]); (1065, [1097]); (1066, [1098]); (1067, [1099]);
   (1068, [1100]); (1069, [1101]); (1070, [1102]); (1071, [1103]); (1120, [1121]);
   (1122, [1123]); (1124, [1125]); (1126, [1127]); (1128, [1129]); (1130, [1131]);
   (1132, [1133]); (1134, [1135]); (1136, [1137]); (1138, [1139]); (1140, [1141]);
   (1142, [1143]); (1144, [1145]); (1146, [1147]); (1148, [1149]); (1150, [1151]);
   (1152, [1153]); (1162, [1163]); (1164, [1165]); (1166, [1167]); (1168, [1169]);
   (1170, [1171]); (1172, [1173]); (1174, [1175]); (1176, [1177]); (1178, [1179]);
   (1180, [1181]); (1182, [1183]); (1184, [1185]); (1186, [1187]); (1188, [1189]);
   (1190, [1191]); (1192, [1193]); (1194, [1195]); (1196, [1197]); (1198, [1199]);
   (1200, [1201])]%N.

Definition casefolded_4 : list (N * list N) :=
  [(1202, [1203]); (1204, [1205]); (1206, [1207]); (1208, [1209]); (1210, [1211]);
   (1212, [1213]); (1214, [1215]); (1216, [1231]); (1217, [1218]); (1219, [1220]);
   (1221, [1222]); (1223, [1224]); (1225, [1226]); (1227, [1228]); (1229, [1230]);
   (1232, [1233]); (1234, [1235]); (1236, [1237]); (1238, [1239]); (1240, [1241]);
   (1242, [1243]); (1244, [1245]); (1246, [1247]); (1248, [1249]); (1250, [1251]);
   (1252, [1253]); (1254, [1255]); (1256, [1257]); (1258, [1259]); (1260, [1261]);
   (1262, [1263]); (1264, [1265]); (1266, [1267]); (1268, [1269]); (1270, [1271]);
   (1272, [1273]); (1274, [1275]); (1276, [1277]); (1278, [1279]); (1280, [1281]);
   (1282, [1283]); (1284, [1285]); (1286, [1287]); (1288, [1289]); (1290, [1291]);
   (1292, [1293]); (1294, [1295]); (1296, [1297]); (1298, [1299]); (1300, [1301]);
   (1302, [1303]); (1304, [1305]); (1306, [1307]); (1308, [1309]); (1310, [1311]);
   (1312, [1313]); (1314, [1315]); (1316, [1317]); (1318, [1319]); (1320, [1321]);
   (1322, [1323]); (1324, [1325]); (1326, [1327]); (1329, [1377]); (1330, [1378]);
   (1331, [1379]); (1332, [1380]); (1333, [1381]); (1334, [1382]); (1335, [1383]);
   (1336, [1384]); (1337, [1385]); (1338, [1386]); (1339, [1387]); (1340, [1388]);
   (1341, [1389]); (1342, [1390]); (1343, [1391]); (1344, [1392]); (1345, [1393]);
   (1346, [1394]); (1347, [1395]); (1348, [1396]); (1349, [1397]); (1350, [1398]);
   (1351, [1399]); (1352, [1400]); (1353, [1401]); (1354, [1402]); (1355, [1403]);
   (1356, [1404]); (1357, [1405]); (1358, [1406]); (1359, [1407]); (1360, [1408]);
   (1361, [1409])]%N.

Definition casefolded_5 : list (N * list N) :=
  [(1362, [1410]); (1363, [1411]); (1364, [1412]); (1365, [1413]); (1366, [1414]);
   (1415, [1381; 1410]); (4256, [11520]); (4257, [11521]); (4258, [11522]); (4259, [11523]);
   (4260, [11524]); (4261, [11525]); (4262, [11526]); (4263, [11527]); (4264, [11528]);
   (4265, [11529]); (4266, [11530]); (4267, [11531]); (4268, [11532]); (4269, [11533]);
   (4270, [11534]); (4271, [11535]); (4272, [11536]); (4273, [11537]); (4274, [11538]);
   (4275, [11539]); (4276, [11540]); (4277, [11541]); (4278, [11542]); (4279, [11543]);
   (4280, [11544]); (4281, [11545]); (4282, [11546]); (4283, [11547]); (4284, [11548]);
   (4285, [11549]); (4286, [11550]); (4287, [11551]); (4288, [11552]); (4289, [11553]);
   (4290, [11554]); (4291, [11555]); (4292, [11556]); (4293, [11557]); (4295, [11559]);
   (4301, [11565]); (5112, [5104]); (5113, [5105]); (5114, [5106]); (5115, [5107]);
   (5116, [5108]); (5117, [5109]); (7296, [1074]); (7297, [1076]); (7298, [1086]);
   (7299, [1089]); (7300, [1090]); (7301, [1090]); (7302, [1098]); (7303, [1123]);
   (7304, [42571]); (7312, [4304]); (7313, [4305]); (7314, [4306]); (7315, [4307]);
   (7316, [4308]); (7317, [4309]); (7318, [4310]); (7319, [4311]); (7320, [4312]);
   (7321, [4313]); (7322, [4314]); (7323, [4315]); (7324, [4316]); (7325, [4317]);
   (7326, [4318]); (7327, [4319]); (7328, [4320]); (7329, [4321]); (7330, [4322]);
   (7331, [4323]); (7332, [4324]); (7333, [4325]); (7334, [4326]); (7335, [4327]);
   (7336, [4328]); (7337, [4329]); (7338, [4330]); (7339, [4331]); (7340, [4332]);
   (7341, [4333]); (7342, [4334]); (7343, [4335]); (7344, [4336]); (7345, [4337]);
   (7346, [4338])]%N.

Definition casefolded_6 : list (N * list N) :=
  [(7347, [4339]); (7348, [4340]); (7349, [4341]); (7350, [4342]); (7351, [4343]);
   (7352, [4344]); (7353, [4345]); (7354, [4346]); (7357, [4349]); (7358, [4350]);
   (7359, [4351]); (7680, [7681]); (7682, [7683]); (7684, [7685]); (7686, [7687]);
   (7688, [7689]); (7690, [7691]); (7692, [7693]); (7694, [7695]); (7696, [7697]);
   (7698, [7699]); (7700, [7701]); (7702, [7703]); (7704, [7705]); (7706, [7707]);
   (7708, [7709]); (7710, [7711]); (7712, [7713]); (7714, [7715]); (7716, [7717]);
   (7718, [7719]); (7720, [7721]); (7722, [7723]); (7724, [7725]); (7726, [7727]);
   (7728, [7729]); (7730, [7731]); (7732, [7733]); (7734, [7735]); (7736, [7737]);
   (7738, [7739]); (7740, [7741]); (7742, [7743]); (7744, [7745]); (7746, [7747]);
   (7748, [7749]); (7750, [7751]); (7752, [7753]); (7754, [7755]); (7756, [7757]);
   (7758, [7759]); (7760, [7761]); (7762, [7763]); (7764, [7765]); (7766, [7767]);
   (7768, [7769]); (7770, [7771]); (7772, [7773]); (7774, [7775]); (7776, [7777]);
   (7778, [7779]); (7780, [7781]); (7782, [7783]); (7784, [7785]); (7786, [7787]);
   (7788, [7789]); (7790, [7791]); (7792, [7793]); (7794, [7795]); (7796, [7797]);
   (7798, [7799]); (7800, [7801]); (7802, [7803]); (7804, [7805]); (7806, [7807]);
   (7808, [7809]); (7810, [7811]); (7812, [7813]); (7814, [7815]); (7816, [7817]);
   (7818, [7819]); (7820, [7821]); (7822, [7823]); (7824, [7825]); (7826, [7827]);
   (7828, [7829]); (7830, [104; 817]); (7831, [116; 776]); (7832, [119; 778]); (7833, [121; 778]);
   (7834, [97; 702]); (7835, [7777]); (7838, [115; 115]); (7840, [7841]); (7842, [7843]);
   (7844, [7845])]%N.

Definition casefolded_7 : list (N * list N) :=
  [(7846, [7847]); (7848, [7849]); (7850, [7851]); (7852, [7853]); (7854, [7855]);
   (7856, [7857]); (7858, [7859]); (7860, [7861]); (7862, [7863]); (7864, [7865]);
   (7866, [7867]); (7868, [7869]); (7870, [7871]); (7872, [7873]); (7874, [7875]);
   (7876, [7877]); (7878, [7879]); (7880, [7881]); (7882, [7883]); (7884, [7885]);
   (7886, [7887]); (7888, [7889]); (7890, [7891]); (7892, [7893]); (7894, [7895]);
   (7896, [7897]); (7898, [7899]); (7900, [7901]); (7902, [7903]); (7904, [7905]);
   (7906, [7907]); (7908, [7909]); (7910, [7911]); (7912, [7913]); (7914, [7915]);
   (7916, [7917]); (7918, [7919]); (7920, [7921]); (7922, [7923]); (7924, [7925]);
   (7926, [7927]); (7928, [7929]); (7930, [7931]); (7932, [7933]); (7934, [7935]);
   (7944, [7936]); (7945, [7937]); (7946, [7938]); (7947, [7939]); (7948, [7940]);
   (7949, [7941]); (7950, [7942]); (7951, [7943]); (7960, [7952]); (7961, [7953]);
   (7962, [7954]); (7963, [7955]); (7964, [7956]); (7965, [7957]); (7976, [7968]);
   (7977, [7969]); (7978, [7970]); (7979, [7971]); (7980, [7972]); (7981, [7973]);
   (7982, [7974]); (7983, [7975]); (7992, [7984]); (7993, [7985]); (7994, [7986]);
   (7995, [7987]); (7996, [7988]); (7997, [7989]); (7998, [7990]); (7999, [7991]);
   (8008, [8000]); (8009, [8001]); (8010, [8002]); (8011, [8003]); (8012, [8004]);
   (8013, [8005]); (8016, [965; 787]); (8018, [965; 787; 768]); (8020, [965; 787; 769]); (8022, [965; 787; 834]);
   (8025, [8017]); (8027, [8019]); (8029, [8021]); (8031, [8023]); (8040, [8032]);
   (8041, [8033]); (8042, [8034]); (8043, [8035]); (8044, [8036]); (8045, [8037]);
   (8046, [8038])]%N.

Definition casefolded_8 : list (N * list N) :=
  [(8047, [8039]); (8064, [7936; 953]); (8065, [7937; 953]); (8066, [7938; 953]); (8067, [7939; 953]);
   (8068, [7940; 953]); (8069, [7941; 953]); (8070, [7942; 953]); (8071, [7943; 953]); (8072, [7936; 953]);
   (8073, [7937; 953]); (8074, [7938; 953]); (8075, [7939; 953]); (8076, [7940; 953]); (8077, [7941; 953]);
   (8078, [7942; 953]); (8079, [7943; 953]); (8080, [7968; 953]); (8081, [7969; 953]); (8082, [7970; 953]);
   (8083, [7971; 953]); (8084, [7972; 953]); (8085, [7973; 953]); (8086, [7974; 953]); (8087, [7975; 953]);
   (8088, [7968; 953]); (8089, [7969; 953]); (8090, [7970; 953]); (8091, [7971; 953]); (8092, [7972; 953]);
   (8093, [7973; 953]); (8094, [7974; 953]); (8095, [7975; 953]); (8096, [8032; 953]); (8097, [8033; 953]);
   (8098, [8034; 953]); (8099, [8035; 953]); (8100, [8036; 953]); (8101, [8037; 953]); (8102, [8038; 953]);
   (8103, [8039; 953]); (8104, [8032; 953]); (8105, [8033; 953]); (8106, [8034; 953]); (8107, [8035; 953]);
   (8108, [8036; 953]); (8109, [8037; 953]); (8110, [8038; 953]); (8111, [8039; 953]); (8114, [8048; 953]);
   (8115, [945; 953]); (8116, [940; 953]); (8118, [945; 834]); (8119, [945; 834; 953]); (8120, [8112]);
   (8121, [8113]); (8122, [8048]); (8123, [8049]); (8124, [945; 953]); (8126, [953]);
   (8130, [8052; 953]); (8131, [951; 953]); (8132, [942; 953]); (8134, [951; 834]); (8135, [951; 834; 953]);
   (8136, [8050]); (8137, [8051]); (8138, [8052]); (8139, [8053]); (8140, [951; 953]);
   (8146, [953; 776; 768]); (8147, [953; 776; 769]); (8150, [953; 834]); (8151, [953; 776; 834]); (8152, [8144]);
   (8153, [8145]); (8154, [8054]); (8155, [8055]); (8162, [965; 776; 768]); (8163, [965; 776; 769]);
   (8164, [961; 787]); (8166, [965; 834]); (8167, [965; 776; 834]); (8168, [8160]); (8169, [8161]);
   (8170, [8058]); (8171, [8059]); (8172, [8165]); (8178, [8060; 953]); (8179, [969; 953]);
   (8180, [974; 953]); (8182, [969; 834]); (8183, [969; 834; 953]); (8184, [8056]); (8185, [8057]);
   (8186, [8060])]%N.

Definition casefolded_9 : list (N * list N) :=
  [(8187, [8061]); (8188, [969; 953]); (8486, [969]); (8490, [107]); (8491, [229]);
   (8498, [8526]); (8544, [8560]); (8545, [8561]); (8546, [8562]); (8547, [8563]);
   (8548, [8564]); (8549, [8565]); (8550, [8566]); (8551, [8567]); (8552, [8568]);
   (8553, [8569]); (8554, [8570]); (8555, [8571]); (8556, [8572]); (8557, [8573]);
   (8558, [8574]); (8559, [8575]); (8579, [8580]); (9398, [9424]); (9399, [9425]);
   (9400, [9426]); (9401, [9427]); (9402, [9428]); (9403, [9429]); (9404, [9430]);
   (9405, [9431]); (9406, [9432]); (9407, [9433]); (9408, [9434]); (9409, [9435]);
   (9410, [9436]); (9411, [9437]); (9412, [9438]); (9413, [9439]); (9414, [9440]);
   (9415, [9441]); (9416, [9442]); (9417, [9443]); (9418, [9444]); (9419, [9445]);
   (9420, [9446]); (9421, [9447]); (9422, [9448]); (9423, [9449]); (11264, [11312]);
   (11265, [11313]); (11266, [11314]); (11267, [11315]); (11268, [11316]); (11269, [11317]);
   (11270, [11318]); (11271, [11319]); (11272, [11320]); (11273, [11321]); (11274, [11322]);
   (11275, [11323]); (11276, [11324]); (11277, [11325]); (11278, [11326]); (11279, [11327]);
   (11280, [11328]); (11281, [11329]); (11282, [11330]); (11283, [11331]); (11284, [11332]);
   (11285, [11333]); (11286, [11334]); (11287, [11335]); (11288, [11336]); (11289, [11337]);
   (11290, [11338]); (11291, [11339]); (11292, [11340]); (11293, [11341]); (11294, [11342]);
   (11295, [11343]); (11296, [11344]); (11297, [11345]); (11298, [11346]); (11299, [11347]);
   (11300, [11348]); (11301, [11349]); (11302, [11350]); (11303, [11351]); (11304, [11352]);
   (11305, [11353]); (11306, [11354]); (11307, [11355]); (11308, [11356]); (11309, [11357]);
   (11310, [11358])]%N.

Definition casefolded_10 : list (N * list N) :=
  [(11311, [11359]); (11360, [11361]); (11362, [619]); (11363, [7549]); (11364, [637]);
   (11367, [11368]); (11369, [11370]); (11371, [11372]); (11373, [593]); (11374, [625]);
   (11375, [592]); (11376, [594]); (11378, [11379]); (11381, [11382]); (11390, [575]);
   (11391, [576]); (11392, [11393]); (11394, [11395]); (11396, [11397]); (11398, [11399]);
   (11400, [11401]); (11402, [11403]); (11404, [11405]); (11406, [11407]); (11408, [11409]);
   (11410, [11411]); (11412, [11413]); (11414, [11415]); (11416, [11417]); (11418, [11419]);
   (11420, [11421]); (11422, [11423]); (11424, [11425]); (11426, [11427]); (11428, [11429]);
   (11430, [11431]); (11432, [11433]); (11434, [11435]); (11436, [11437]); (11438, [11439]);
   (11440, [11441]); (11442, [11443]); (11444, [11445]); (11446, [11447]); (11448, [11449]);
   (11450, [11451]); (11452, [11453]); (11454, [11455]); (11456, [11457]); (11458, [11459]);
   (11460, [11461]); (11462, [11463]); (11464, [11465]); (11466, [11467]); (11468, [11469]);
   (11470, [11471]); (11472, [11473]); (11474, [11475]); (11476, [11477]); (11478, [11479]);
   (11480, [11481]); (11482, [11483]); (11484, [11485]); (11486, [11487]); (11488, [11489]);
   (11490, [11491]); (11499, [11500]); (11501, [11502]); (11506, [11507]); (42560, [42561]);
   (42562, [42563]); (42564, [42565]); (42566, [42567]); (42568, [42569]); (42570, [42571]);
   (42572, [42573]); (42574, [42575]); (42576, [42577]); (42578, [42579]); (42580, [42581]);
   (42582, [42583]); (42584, [42585]); (42586, [42587]); (42588, [42589]); (42590, [42591]);
   (42592, [42593]); (42594, [42595]); (42596, [42597]); (42598, [42599]); (42600, [42601]);
   (42602, [42603]); (42604, [42605]); (42624, [42625]); (42626, [42627]); (42628, [42629]);
   (42630, [42631])]%N.

Definition casefolded_11 : list (N * list N) :=
  [(42632, [42633]); (42634, [42635]); (42636, [42637]); (42638, [42639]); (42640, [42641]);
   (42642, [42643]); (42644, [42645]); (42646, [42647]); (42648, [42649]); (42650, [42651]);
   (42786, [42787]); (42788, [42789]); (42790, [42791]); (42792, [42793]); (42794, [42795]);
   (42796, [42797]); (42798, [42799]); (42802, [42803]); (42804, [42805]); (42806, [42807]);
   (42808, [42809]); (42810, [42811]); (42812, [42813]); (42814, [42815]); (42816, [42817]);
   (42818, [42819]); (42820, [42821]); (42822, [42823]); (42824, [42825]); (42826, [42827]);
   (42828, [42829]); (42830, [42831]); (42832, [42833]); (42834, [42835]); (42836, [42837]);
   (42838, [42839]); (42840, [42841]); (42842, [42843]); (42844, [42845]); (42846, [42847]);
   (42848, [42849]); (42850, [42851]); (42852, [42853]); (42854, [42855]); (42856, [42857]);
   (42858, [42859]); (42860, [42861]); (42862, [42863]); (42873, [42874]); (42875, [42876]);
   (42877, [7545]); (42878, [42879]); (42880, [42881]); (42882, [42883]); (42884, [42885]);
   (42886, [42887]); (42891, [42892]); (42893, [613]); (42896, [42897]); (42898, [42899]);
   (42902, [42903]); (42904, [42905]); (42906, [42907]); (42908, [42909]); (42910, [42911]);
   (42912, [42913]); (42914, [42915]); (42916, [42917]); (42918, [42919]); (42920, [42921]);
   (42922, [614]); (42923, [604]); (42924, [609]); (42925, [620]); (42926, [618]);
   (42928, [670]); (42929, [647]); (42930, [669]); (42931, [43859]); (42932, [42933]);
   (42934, [42935]); (42936, [42937]); (42938, [42939]); (42940, [42941]); (42942, [42943]);
   (42944, [42945]); (42946, [42947]); (42948, [42900]); (42949, [642]); (42950, [7566]);
   (42951, [42952]); (42953, [42954]); (42960, [42961]); (42966, [42967]); (42968, [42969]);
   (42997, [42998])]%N.

Definition casefolded_12 : list (N * list N) :=
  [(43888, [5024]); (43889, [5025]); (43890, [5026]); (43891, [5027]); (43892, [5028]);
   (43893, [5029]); (43894, [5030]); (43895, [5031]); (43896, [5032]); (43897, [5033]);
   (43898, [5034]); (43899, [5035]); (43900, [5036]); (43901, [5037]); (43902, [5038]);
   (43903, [5039]); (43904, [5040]); (43905, [5041]); (43906, [5042]); (43907, [5043]);
   (43908, [5044]); (43909, [5045]); (43910, [5046]); (43911, [5047]); (43912, [5048]);
   (43913, [5049]); (43914, [5050]); (43915, [5051]); (43916, [5052]); (43917, [5053]);
   (43918, [5054]); (43919, [5055]); (43920, [5056]); (43921, [5057]); (43922, [5058]);
   (43923, [5059]); (43924, [5060]); (43925, [5061]); (43926, [5062]); (43927, [5063]);
   (43928, [5064]); (43929, [5065]); (43930, [5066]); (43931, [5067]); (43932, [5068]);
   (43933, [5069]); (43934, [5070]); (43935, [5071]); (43936, [5072]); (43937, [5073]);
   (43938, [5074]); (43939, [5075]); (43940, [5076]); (43941, [5077]); (43942, [5078]);
   (43943, [5079]); (43944, [5080]); (43945, [5081]); (43946, [5082]); (43947, [5083]);
   (43948, [5084]); (43949, [5085]); (43950, [5086]); (43951, [5087]); (43952, [5088]);
   (43953, [5089]); (43954, [5090]); (43955, [5091]); (43956, [5092]); (43957, [5093]);
   (43958, [5094]); (43959, [5095]); (43960, [5096]); (43961, [5097]); (43962, [5098]);
   (43963, [5099]); (43964, [5100]); (43965, [5101]); (43966, [5102]); (43967, [5103]);
   (64256, [102; 102]); (64257, [102; 105]); (64258, [102; 108]); (64259, [102; 102; 105]); (64260, [102; 102; 108]);
   (64261, [115; 116]); (64262, [115; 116]); (64275, [1396; 1398]); (64276, [1396; 1381]); (64277, [1396; 1387]);
   (64278, [1406; 1398]); (64279, [1396; 1389]); (65313, [65345]); (65314, [65346]); (65315, [65347]);
   (65316, [65348])]%N.

Definition casefolded_13 : list (N * list N) :=
  [(65317, [65349]); (65318, [65350]); (65319, [65351]); (65320, [65352]); (65321, [65353]);
   (65322, [65354]); (65323, [65355]); (65324, [65356]); (65325, [65357]); (65326, [65358]);
   (65327, [65359]); (65328, [65360]); (65329, [65361]); (65330, [65362]); (65331, [65363]);
   (65332, [65364]); (65333, [65365]); (65334, [65366]); (65335, [65367]); (65336, [65368]);
   (65337, [65369]); (65338, [65370]); (66560, [66600]); (66561, [66601]); (66562, [66602]);
   (66563, [66603]); (66564, [66604]); (66565, [66605]); (66566, [66606]); (66567, [66607]);
   (66568, [66608]); (66569, [66609]); (66570, [66610]); (66571, [66611]); (66572, [66612]);
   (66573, [66613]); (66574, [66614]); (66575, [66615]); (66576, [66616]); (66577, [66617]);
   (66578, [66618]); (66579, [66619]); (66580, [66620]); (66581, [66621]); (66582, [66622]);
   (66583, [66623]); (66584, [66624]); (66585, [66625]); (66586, [66626]); (66587, [66627]);
   (66588, [66628]); (66589, [66629]); (66590, [66630]); (66591, [66631]); (66592, [66632]);
   (66593, [66633]); (66594, [66634]); (66595, [66635]); (66596, [66636]); (66597, [66637]);
   (66598, [66638]); (66599, [66639]); (66736, [66776]); (66737, [66777]); (66738, [66778]);
   (66739, [66779]); (66740, [66780]); (66741, [66781]); (66742, [66782]); (66743, [66783]);
   (66744, [66784]); (66745, [66785]); (66746, [66786]); (66747, [66787]); (66748, [66788]);
   (66749, [66789]); (66750, [66790]); (66751, [66791]); (66752, [66792]); (66753, [66793]);
   (66754, [66794]); (66755, [66795]); (66756, [66796]); (66757, [66797]); (66758, [66798]);
   (66759, [66799]); (66760, [66800]); (66761, [66801]); (66762, [66802]); (66763, [66803]);
   (66764, [66804]); (66765, [66805]); (66766, [66806]); (66767, [66807]); (66768, [66808]);
   (66769, [66809])]%N.

Definition casefolded_14 : list (N * list N) :=
  [(66770, [66810]); (66771, [66811]); (66928, [66967]); (66929, [66968]); (66930, [66969]);
   (66931, [66970]); (66932, [66971]); (66933, [66972]); (66934, [66973]); (66935, [66974]);
   (66936, [66975]); (66937, [66976]); (66938, [66977]); (66940, [66979]); (66941, [66980]);
   (66942, [66981]); (66943, [66982]); (66944, [66983]); (66945, [66984]); (66946, [66985]);
   (66947, [66986]); (66948, [66987]); (66949, [66988]); (66950, [66989]); (66951, [66990]);
   (66952, [66991]); (66953, [66992]); (66954, [66993]); (66956, [66995]); (66957, [66996]);
   (66958, [66997]); (66959, [66998]); (66960, [66999]); (66961, [67000]); (66962, [67001]);
   (66964, [67003]); (66965, [67004]); (68736, [68800]); (68737, [68801]); (68738, [68802]);
   (68739, [68803]); (68740, [68804]); (68741, [68805]); (68742, [68806]); (68743, [68807]);
   (68744, [68808]); (68745, [68809]); (68746, [68810]); (68747, [68811]); (68748, [68812]);
   (68749, [68813]); (68750, [68814]); (68751, [68815]); (68752, [68816]); (68753, [68817]);
   (68754, [68818]); (68755, [68819]); (68756, [68820]); (68757, [68821]); (68758, [68822]);
   (68759, [68823]); (68760, [68824]); (68761, [68825]); (68762, [68826]); (68763, [68827]);
   (68764, [68828]); (68765, [68829]); (68766, [68830]); (68767, [68831]); (68768, [68832]);
   (68769, [68833]); (68770, [68834]); (68771, [68835]); (68772, [68836]); (68773, [68837]);
   (68774, [68838]); (68775, [68839]); (68776, [68840]); (68777, [68841]); (68778, [68842]);
   (68779, [68843]); (68780, [68844]); (68781, [68845]); (68782, [68846]); (68783, [68847]);
   (68784, [68848]); (68785, [68849]); (68786, [68850]); (71840, [71872]); (71841, [71873]);
   (71842, [71874]); (71843, [71875]); (71844, [71876]); (71845, [71877]); (71846, [71878]);
   (71847, [71879])]%N.

Definition casefolded_15 : list (N * list N) :=
  [(71848, [71880]); (71849, [71881]); (71850, [71882]); (71851, [71883]); (71852, [71884]);
   (71853, [71885]); (71854, [71886]); (71855, [71887]); (71856, [71888]); (71857, [71889]);
   (71858, [71890]); (71859, [71891]); (71860, [71892]); (71861, [71893]); (71862, [71894]);
   (71863, [71895]); (71864, [71896]); (71865, [71897]); (71866, [71898]); (71867, [71899]);
   (71868, [71900]); (71869, [71901]); (71870, [71902]); (71871, [71903]); (93760, [93792]);
   (93761, [93793]); (93762, [93794]); (93763, [93795]); (93764, [93796]); (93765, [93797]);
   (93766, [93798]); (93767, [93799]); (93768, [93800]); (93769, [93801]); (93770, [93802]);
   (93771, [93803]); (93772, [93804]); (93773, [93805]); (93774, [93806]); (93775, [93807]);
   (93776, [93808]); (93777, [93809]); (93778, [93810]); (93779, [93811]); (93780, [93812]);
   (93781, [93813]); (93782, [93814]); (93783, [93815]); (93784, [93816]); (93785, [93817]);
   (93786, [93818]); (93787, [93819]); (93788, [93820]); (93789, [93821]); (93790, [93822]);
   (93791, [93823]); (125184, [125218]); (125185, [125219]); (125186, [125220]); (125187, [125221]);
   (125188, [125222]); (125189, [125223]); (125190, [125224]); (125191, [125225]); (125192, [125226]);
   (125193, [125227]); (125194, [125228]); (125195, [125229]); (125196, [125230]); (125197, [125231]);
   (125198, [125232]); (125199, [125233]); (125200, [125234]); (125201, [125235]); (125202, [125236]);
   (125203, [125237]); (125204, [125238]); (125205, [125239]); (125206, [125240]); (125207, [125241]);
   (125208, [125242]); (125209, [125243]); (125210, [125244]); (125211, [125245]); (125212, [125246]);
   (125213, [125247]); (125214, [125248]); (125215, [125249]); (125216, [125250]); (125217, [125251])]%N.

(** [chr(c).casefold()] for every character that [str.casefold] moves, by
    code point (Unicode 14.0.0). *)
Definition casefolded : list (N * list N) :=
  concat
    [casefolded_0; casefolded_1; casefolded_2; casefolded_3;
     casefolded_4; casefolded_5; casefolded_6; casefolded_7;
     casefolded_8; casefolded_9; casefolded_10; casefolded_11;
     casefolded_12; casefolded_13; casefolded_14; casefolded_15].

Fixpoint assoc (c : N) (table : list (N * list N)) : option (list N) :=
  match table with
  | [] => None
  | (k, u) :: rest => if N.eqb c k then Some u else assoc c rest
  end.

(** A character mapped through a table of the characters that move. *)
Definition mapped (table : list (N * list N)) (c : N) : list N :=
  match assoc c table with
  | Some u => u
  | None => [c]
  end.

(** [s.upper()]: every character replaced by its upper case. *)
Definition upper (s : str) : str := flat_map (mapped uppercase) s.

(** [s.casefold()] *)
Definition casefold (s : str) : str := flat_map (mapped casefolded) s.

(** Caseless matching of two texts, as Unicode defines it and Python
    offers it: the two texts have the same case folding. *)
Definition caseless (a b : str) : bool := str_eqb (casefold a) (casefold b).

(** The lower case of an ASCII letter; every other character as it is. *)
Definition lower_ascii (c : N) : N :=
  if (N.leb 65 c && N.leb c 90)%bool then (c + 32)%N else c.

(** Equality of two texts up to the case of their ASCII letters, character
    by character. *)
Fixpoint eq_ignore_case (a b : str) : bool :=
  match a, b with
  | [], [] => true
  | x :: a', y :: b' =>
      N.eqb (lower_ascii x) (lower_ascii y) && eq_ignore_case a' b'
  | _, _ => false
  end.

End Unicode.

(** ** The texts that are POST when case is ignored *)
Module Spelling.
Import Unicode.

Definition mem (c : N) (l : list N) : bool := existsb (N.eqb c) l.

Definition mem_str (m : str) (l : list str) : bool := existsb (str_eqb m) l.

(** The words over an alphabet, of one length and up to a length. *)
Fixpoint words (alphabet : list N) (n : nat) : list str :=
  match n with
  | O => [[]]
  | S k => flat_map (fun c => map (cons c) (words alphabet k)) alphabet
  end.

Fixpoint words_upto (alphabet : list N) (n : nat) : list str :=
  match n with
  | O => words alphabet 0
  | S k => (words_upto alphabet k ++ words alphabet (S k))%list
  end.

(** Whether [x] is a run of consecutive characters of [w]. *)
Definition infix_of (x w : str) : bool :=
  existsb (fun k =>
    existsb (fun j => str_eqb x (firstn j (skipn k w))) (seq 1 (length w)))
    (seq 0 (length w)).

Definition is_nil (l : list N) : bool :=
  match l with
  | [] => true
  | _ => false
  end.

(** The characters whose upper case or case folding is a piece of POST:
    P p O o S s, the long s (U+017F), T t, and the ligatures long-s-t
    (U+FB05) and st (U+FB06). *)
Definition post_letters : list N :=
  [80; 112; 79; 111; 83; 115; 383; 84; 116; 64261; 64262]%N.

(** The thirty-two spellings of POST: one of P p, one of O o, then one of
    S s long-s followed by one of T t, or one of the two ligatures. *)
Definition post_spellings : list str :=
  flat_map (fun p =>
    flat_map (fun o =>
      (flat_map (fun s => map (fun t => [p; o; s; t]) [84; 116]%N) [83; 115; 383]%N
       ++ map (fun st => [p; o; st]) [64261; 64262]%N)%list)
      [79; 111]%N)
    [80; 112]%N.

Definition spells_post (m : str) : bool := mem_str m post_spellings.

(** The rows of the two tables for these letters. *)
Definition post_upper : list (N * list N) :=
  [(112, [80]); (111, [79]); (115, [83]); (383, [83]); (116, [84]);
   (64261, [83; 84]); (64262, [83; 84])]%N.

Definition post_folded : list (N * list N) :=
  [(80, [112]); (79, [111]); (83, [115]); (383, [115]); (84, [116]);
   (64261, [115; 116]); (64262, [115; 116])]%N.

End Spelling.

(** ** Outcomes of fallible calls: a Python call returns or raises *)
Module Exc.

Inductive result (A : Type) : Type :=
| Returned (a : A)
| Raised (failure : string).
Arguments Returned {A} a.
Arguments Raised {A} failure.

(** Computations over a piece of outside state [S] that return or raise. *)
Definition M (S A : Type) : Type := S -> result A * S.

Definition ret {S A} (a : A) : M S A := fun s => (Returned a, s).
Definition raise {S A} (failure : string) : M S A := fun s => (Raised failure, s).
Definition bind {S A B} (m : M S A) (k : A -> M S B) : M S B :=
  fun s =>
    match m s with
    | (Returned a, s') => k a s'
    | (Raised e, s') => (Raised e, s')
    end.

(** Whether a call raised. *)
Definition raised {A} (r : result A) : bool :=
  match r with
  | Raised _ => true
  | Returned _ => false
  end.

End Exc.

Declare Scope exc_scope.
Delimit Scope exc_scope with exc.
Notation "x <- m ;; k" := (Exc.bind m (fun x => k))
  (at level 61, m at next level, right associativity) : exc_scope.

Notation "m ;; k" := (Exc.bind m (fun _ => k))
  (at level 61, right associativity) : exc_scope.

(** ** agents/tools/http_tools.py *)
Module Http.
Import Text Exc Unicode.

(** A Python [dict] handed to [httpx] as form data; only passed along. *)
Definition dict : Type := list (string * string).

(** [class HttpInput(BaseModel)], with the defaults of its fields.  The
    method is a [str] of any characters; the URL is only passed along. *)
Record HttpInput : Type := {
  url : string;
  method : str;
  data : option dict
}.

Definition HttpInput_of_url (u : string) : HttpInput :=
  {| url := u; method := codes "GET"; data := None |}.

Inductive Verb : Type := GET | POST.

(** One call into [httpx], with the arguments the caller passes.  A keyword
    the caller leaves out is [None]: the library's own default applies. *)
Record Call : Type := {
  call_verb : Verb;
  call_url : string;
  call_data : option dict;
  call_timeout : option nat
}.

Record Response : Type := {
  headers : list (string * string);
  text : string
}.

(** What the file takes from [httpx]: how the outside answers a call, given
    the calls made before it (a response, or the text of the exception the
    library raises), and [str] of a headers object. *)
Class Httpx : Type := {
  answer : list Call -> Call -> result Response;
  str_headers : list (string * string) -> string
}.

(** The outside state of the tool: every request issued so far, in order. *)
Definition Trace : Type := list Call.

Section Tool.
Context `{Httpx}.

Definition request (c : Call) : M Trace Response :=
  fun sent => (answer sent c, (sent ++ [c])%list).

(** [httpx.post(url, data=data)] *)
Definition httpx_post (u : string) (d : option dict) : M Trace Response :=
  request {| call_verb := POST; call_url := u; call_data := d; call_timeout := None |}.

(** [httpx.get(url)] *)
Definition httpx_get (u : string) : M Trace Response :=
  request {| call_verb := GET; call_url := u; call_data := None; call_timeout := None |}.

(** [HttpTool._run] *)
Definition _run (url : string) (method : str) (data : option dict) : M Trace string :=
  (response <- (if str_eqb (upper method) (codes "POST")
                then httpx_post url data
                else httpx_get url) ;;
   let headers := str_headers response.(headers) in
   let body := response.(text) in
   ret ("Headers:" ++ nl ++ headers ++ nl ++ nl ++ "Body:" ++ nl ++ body))%exc.

(** [HttpTool._arun] *)
Definition _arun (url : string) (method : str) (data : option dict) : M Trace string :=
  raise "http_tool does not support async".

End Tool.

(** The request expected of an invocation: a POST that carries the data
    when the method matches POST with case ignored, a GET without data
    otherwise. *)
Definition chosen_call (url : string) (method : str) (data : option dict) : Call :=
  if caseless method (codes "POST")
  then {| call_verb := POST; call_url := url; call_data := data; call_timeout := None |}
  else {| call_verb := GET; call_url := url; call_data := None; call_timeout := None |}.

Definition name : string := "http_tool".
Definition description : string :=
  "Useful for when you need to make a request to a url. Can be used for GET and POST requests.".

End Http.

(** ** flagserver/server.py *)
Module FlagServer.
Import Text.

Definition crlf : string := cr ++ nl.

(** [BaseHTTPRequestHandler.responses]: the phrase of each status code
    ([http.HTTPStatus], Python 3.11). *)
Definition responses : list (nat * string) :=
  [(100, "Continue"); (101, "Switching Protocols"); (102, "Processing");
   (103, "Early Hints"); (200, "OK"); (201, "Created"); (202, "Accepted");
   (203, "Non-Authoritative Information"); (204, "No Content");
   (205, "Reset Content"); (206, "Partial Content"); (207, "Multi-Status");
   (208, "Already Reported"); (226, "IM Used"); (300, "Multiple Choices");
   (301, "Moved Permanently"); (302, "Found"); (303, "See Other");
   (304, "Not Modified"); (305, "Use Proxy"); (307, "Temporary Redirect");
   (308, "Permanent Redirect"); (400, "Bad Request"); (401, "Unauthorized");
   (402, "Payment Required"); (403, "Forbidden"); (404, "Not Found");
   (405, "Method Not Allowed"); (406, "Not Acceptable");
   (407, "Proxy Authentication Required"); (408, "Request Timeout");
   (409, "Conflict"); (410, "Gone"); (411, "Length Required");
   (412, "Precondition Failed"); (413, "Request Entity Too Large");
   (414, "Request-URI Too Long"); (415, "Unsupported Media Type");
   (416, "Requested Range Not Satisfiable"); (417, "Expectation Failed");
   (418, "I'm a Teapot"); (421, "Misdirected Request");
   (422, "Unprocessable Entity"); (423, "Locked");
   (424, "Failed Dependency"); (425, "Too Early");
   (426, "Upgrade Required"); (428, "Precondition Required");
   (429, "Too Many Requests"); (431, "Request Header Fields Too Large");
   (451, "Unavailable For Legal Reasons"); (500, "Internal Server Error");
   (501, "Not Implemented"); (502, "Bad Gateway");
   (503, "Service Unavailable"); (504, "Gateway Timeout");
   (505, "HTTP Version Not Supported"); (506, "Variant Also Negotiates");
   (507, "Insufficient Storage"); (508, "Loop Detected");
   (510, "Not Extended"); (511, "Network Authentication Required")].

Fixpoint phrase (code : nat) (table : list (nat * string)) : option string :=
  match table with
  | [] => None
  | (c, p) :: rest => if Nat.eqb code c then Some p else phrase code rest
  end.

(** [protocol_version] of the handler class, which [SimpleHandler] does not
    override. *)
Definition protocol_version : string := "HTTP/1.0".

(** [s.lower()] for text that [send_header] can encode as latin-1: the
    letters A..Z and the capital letters of U+00C0..U+00DE (the
    multiplication sign U+00D7 is no letter) move by 32. *)
Definition lower_latin1 (c : ascii) : ascii :=
  let n := nat_of_ascii c in
  if ((65 <=? n)%nat && (n <=? 90)%nat
      || (192 <=? n)%nat && (n <=? 222)%nat && negb (n =? 215)%nat)%bool
  then ascii_of_nat (n + 32) else c.

Fixpoint lower (s : string) : string :=
  match s with
  | EmptyString => EmptyString
  | String c r => String (lower_latin1 c) (lower r)
  end.

(** The handler of [http.server] while it serves one request: what
    [parse_request] stored of the request line, the header lines buffered,
    the bytes written to [wfile], the flag that ends the connection, and
    the status codes logged.  A request line of two words ([GET /flag])
    is served with [request_version] equal to HTTP/0.9. *)
Record Handler : Type := {
  command : string;
  path : string;
  request_version : string;
  _headers_buffer : list string;
  wfile : string;
  close_connection : bool;
  logged : list nat
}.

(** The handler as [parse_request] leaves it. *)
Definition serving (command path request_version : string) : Handler :=
  {| command := command; path := path; request_version := request_version;
     _headers_buffer := []; wfile := ""; close_connection := true; logged := [] |}.

(** What [send_response] takes from the rest of the library: the server's
    version string and the current date. *)
Class HttpServerLib : Type := {
  version_string : string;
  date_time_string : string
}.

Definition is_0_9 (h : Handler) : bool := String.eqb h.(request_version) "HTTP/0.9".

Definition buffer (line : string) (h : Handler) : Handler :=
  {| command := h.(command); path := h.(path); request_version := h.(request_version);
     _headers_buffer := (h.(_headers_buffer) ++ [line])%list;
     wfile := h.(wfile); close_connection := h.(close_connection);
     logged := h.(logged) |}.

Definition set_close_connection (b : bool) (h : Handler) : Handler :=
  {| command := h.(command); path := h.(path); request_version := h.(request_version);
     _headers_buffer := h.(_headers_buffer);
     wfile := h.(wfile); close_connection := b; logged := h.(logged) |}.

(** [log_request(code)] *)
Definition log_request (code : nat) (h : Handler) : Handler :=
  {| command := h.(command); path := h.(path); request_version := h.(request_version);
     _headers_buffer := h.(_headers_buffer);
     wfile := h.(wfile); close_connection := h.(close_connection);
     logged := (h.(logged) ++ [code])%list |}.

(** [send_response_only(code)]: the status line, unless the request is
    HTTP/0.9. *)
Definition send_response_only (code : nat) (h : Handler) : Handler :=
  if is_0_9 h then h
  else
    let message := match phrase code responses with
                   | Some p => p
                   | None => ""
                   end in
    buffer (protocol_version ++ " "
            ++ DecimalString.NilZero.string_of_uint (Nat.to_uint code)
            ++ " " ++ message ++ crlf) h.

(** [send_header(keyword, value)]: the header line, unless the request is
    HTTP/0.9; a Connection header sets the flag in either case. *)
Definition send_header (keyword value : string) (h : Handler) : Handler :=
  let h := if is_0_9 h then h else buffer (keyword ++ ": " ++ value ++ crlf) h in
  if String.eqb (lower keyword) "connection"
  then if String.eqb (lower value) "close" then set_close_connection true h
       else if String.eqb (lower value) "keep-alive" then set_close_connection false h
       else h
  else h.

(** [wfile.write(b)] *)
Definition wfile_write (b : string) (h : Handler) : Handler :=
  {| command := h.(command); path := h.(path); request_version := h.(request_version);
     _headers_buffer := h.(_headers_buffer);
     wfile := h.(wfile) ++ b; close_connection := h.(close_connection);
     logged := h.(logged) |}.

(** [flush_headers()] *)
Definition flush_headers (h : Handler) : Handler :=
  {| command := h.(command); path := h.(path); request_version := h.(request_version);
     _headers_buffer := [];
     wfile := h.(wfile) ++ join "" h.(_headers_buffer);
     close_connection := h.(close_connection);
     logged := h.(logged) |}.

(** [end_headers()]: the blank line and the flush, unless the request is
    HTTP/0.9. *)
Definition end_headers (h : Handler) : Handler :=
  if is_0_9 h then h else flush_headers (buffer crlf h).

Section Handler.
Context `{HttpServerLib}.

(** [send_response(code)] *)
Definition send_response (code : nat) (h : Handler) : Handler :=
  let h := log_request code h in
  let h := send_response_only code h in
  let h := send_header "Server" version_string h in
  send_header "Date" date_time_string h.

(** [SimpleHandler.do_GET] *)
Definition do_GET (self : Handler) : Handler :=
  let self := send_response 200 self in
  let self := send_header "Content-type" "text/plain" self in
  let self := end_headers self in
  wfile_write "Hello, world!" self.

End Handler.

End FlagServer.

(** ** The file system *)
Module Files.
Import Text Exc.

(** The files and directories the scripts and the tools reach through
    [os.path] and through libraries: a tree of named entries. *)
#[warnings="-register-all"]
Inductive Node : Type :=
| File (content : string)
| Dir (entries : list (string * Node)).

(** The file system as a process sees it: the tree from [/] and the
    working directory. *)
Record Disk : Type := {
  tree : Node;
  cwd : list string
}.

(** [os.path.normpath]: [stack] is the path so far, innermost first. *)
Fixpoint normalize (stack : list string) (comps : list string) : list string :=
  match comps with
  | [] => rev stack
  | c :: r =>
      if String.eqb c "" || String.eqb c "." then normalize stack r
      else if String.eqb c ".." then normalize (tl stack) r
      else normalize (c :: stack) r
  end.

Definition is_absolute (p : string) : bool := prefix "/" p.

(** The absolute path a requested path names. *)
Definition resolve (d : Disk) (p : string) : list string :=
  if is_absolute p then normalize [] (split "/"%char p)
  else normalize (rev d.(cwd)) (split "/"%char p).

Fixpoint find_entry (k : string) (es : list (string * Node)) : option Node :=
  match es with
  | [] => None
  | (k', n) :: r => if String.eqb k k' then Some n else find_entry k r
  end.

Fixpoint lookup (path : list string) (n : Node) : option Node :=
  match path with
  | [] => Some n
  | c :: r =>
      match n with
      | Dir es =>
          match find_entry c es with
          | Some m => lookup r m
          | None => None
          end
      | File _ => None
      end
  end.

Definition node_at (d : Disk) (p : string) : option Node :=
  lookup (resolve d p) d.(tree).

(** A read of the disk: the disk is handed back as it was received. *)
Definition reading {A} (f : Disk -> result A) : M Disk A := fun d => (f d, d).

End Files.

(** ** scripts/agentic_basic.py: the similarity search tool *)
Module Search.
Import Text Exc Files.

(** What the file takes from the libraries it calls: the embedding model
    (whose construction may raise), [FAISS.load_local] (the index read back
    from a folder of the disk, or the failure raised when the folder holds
    no index or holds bytes that are not one), the search (which calls the
    embedding model and may raise too), and [str] of its result. *)
Class Faiss : Type := {
  Embeddings : Type;
  Index : Type;
  Document : Type;
  BedrockEmbeddings : string -> result Embeddings;
  load_local : string -> Embeddings -> bool -> Disk -> result Index;
  similarity_search : Index -> string -> result (list Document);
  str_documents : list Document -> string
}.

Section Tool.
Context `{Faiss}.

(** [CustomSearchTool._run]: the arguments of [load_local] are evaluated
    before it is called. *)
Definition _run (query : string) : M Disk (list Document) :=
  (let faiss_db_path := "../vector_databases/juice_shop_faiss" in
   embeddings <- reading (fun _ => BedrockEmbeddings "amazon.titan-embed-text-v2:0") ;;
   db <- reading (load_local faiss_db_path embeddings true) ;;
   reading (fun _ => similarity_search db query))%exc.

(** [CustomSearchTool._arun] *)
Definition _arun (query : string) : M Disk (list Document) :=
  raise "custom_search does not support async".

End Tool.

Definition name : string := "custom_search".
Definition description : string :=
  "Useful for when you need to answer questions about code".

End Search.

(** ** The agent executor *)
Module Loop.
Import Text Exc.

(** The loop is the [AgentExecutor] of the agent framework, which the
    scripts import and configure with [verbose=True] and
    [handle_parsing_errors=True]; its code is not among the sources at
    hand.  The definitions of this module are section 4.1 of the
    specification (its contract and its state machine), brought in line
    with the executor the call sites build where that executor is known to
    do otherwise: no tool of the repository and no call site asks for a
    raised tool failure to be handled, so it is raised by [invoke]; and a
    completion that does not parse is recorded with the parser's message as
    its observation. *)
Section Executor.
Variables World Input : Type.

(** Modelled from the spec: the tool interface of the framework (section
    3): a name, a description, and a synchronous execution that returns
    text or raises. *)
Record Tool : Type := {
  name : string;
  description : string;
  execute : Input -> M World string
}.

Definition ToolSet : Type := list Tool.

(** Modelled from the spec: the look-up of a tool by its name; the
    executor builds a dictionary from name to tool, in which a later tool
    of the same name replaces an earlier one. *)
Fixpoint lookup_tool (n : string) (ts : ToolSet) : option Tool :=
  match ts with
  | [] => None
  | t :: r =>
      match lookup_tool n r with
      | Some later => Some later
      | None => if String.eqb n t.(name) then Some t else None
      end
  end.

Definition tool_names (ts : ToolSet) : list string := map name ts.

(** Modelled from the spec: the action of a step (section 3): a tool with
    its input, or the stand-in the executor records for a completion that
    did not parse, whose input is the message handed back to the model. *)
Inductive Action : Type :=
| Invoke (tool : string) (input : Input)
| Exception_ (tool_input : string).

(** Modelled from the spec: a step.  [log] is the text of the model that
    led to the action; it is replayed to the model before the
    observation. *)
Record Step : Type := {
  action : Action;
  log : string;
  observation : string
}.

(** What is rendered for the model at each iteration. *)
Record Prompt : Type := {
  instructions : string;
  tools_listed : list (string * string);
  task : string;
  scratchpad : list Step
}.

(** Modelled from the spec: what the parser makes of a completion: one of
    the two shapes, or a failure with its text and, when the parser has
    one, the guidance to send back to the model. *)
Inductive Parsed : Type :=
| ActionDirective (tool : string) (input : Input)
| FinalAnswer (answer : string)
| Unparsed (error : string) (guidance : option string).

(** The model endpoint and the parser of its completions.  The first
    argument of [complete] counts the completions requested before: two
    requests with the same prompt may be answered differently (sampling). *)
Record Agent : Type := {
  prompt_text : string;
  complete : nat -> Prompt -> string;
  parse : string -> Parsed
}.

Record Config : Type := {
  max_iterations : nat;
  verbose : bool;
  handle_parsing_errors : bool
}.

(** Modelled from the spec: how a run ends for the caller of [invoke]: a
    final answer, the report that the iteration budget is spent (both with
    the steps taken), or a failure raised out of [invoke]. *)
Inductive Result : Type :=
| Answer (answer : string) (steps : list Step)
| IterationLimit (steps : list Step)
| Raises (failure : string).

(** Modelled from the spec: the states of the executor's state machine
    (section 4.1); [FAILED] is the iteration cap reached, [RAISED] a
    failure on its way out of [invoke]. *)
Inductive Phase : Type :=
| AWAITING_COMPLETION
| EXECUTING_TOOL (tool : string) (input : Input) (log : string)
| DONE (answer : string)
| FAILED
| RAISED (failure : string).

Record State : Type := {
  phase : Phase;
  steps : list Step;
  iterations : nat;
  completions : nat;
  world : World
}.

Variable cfg : Config.
Variable agent : Agent.
Variable tools : ToolSet.
Variable input : string.

Definition initial (w : World) : State :=
  {| phase := AWAITING_COMPLETION; steps := []; iterations := 0;
     completions := 0; world := w |}.

Definition render (st : State) : Prompt :=
  {| instructions := agent.(prompt_text);
     tools_listed := map (fun t => (t.(name), t.(description))) tools;
     task := input;
     scratchpad := st.(steps) |}.

Definition invalid_tool (n : string) : string :=
  n ++ " is not a valid tool, try one of [" ++ join ", " (tool_names tools) ++ "].".

(** The observation the executor uses when the parser gives no guidance. *)
Definition invalid_response : string := "Invalid or incomplete response".

(** The failure raised for a completion that does not parse when
    [handle_parsing_errors] is off. *)
Definition parsing_error (error : string) : string :=
  "ValueError: An output parsing error occurred. In order to pass this error back to the agent and have it try again, pass `handle_parsing_errors=True` to the AgentExecutor. This is the error: "
  ++ error.

(** Append a step and count it. *)
Definition record_step (st : State) (a : Action) (lg obs : string) (w : World) : State :=
  {| phase := AWAITING_COMPLETION;
     steps := (st.(steps)
               ++ [{| action := a; log := lg; observation := obs |}])%list;
     iterations := S st.(iterations);
     completions := st.(completions);
     world := w |}.

Definition set_phase (p : Phase) (st : State) : State :=
  {| phase := p; steps := st.(steps); iterations := st.(iterations);
     completions := st.(completions); world := st.(world) |}.

Definition set_world (w : World) (st : State) : State :=
  {| phase := st.(phase); steps := st.(steps); iterations := st.(iterations);
     completions := st.(completions); world := w |}.

Definition requested (st : State) : State :=
  {| phase := st.(phase); steps := st.(steps); iterations := st.(iterations);
     completions := S st.(completions); world := st.(world) |}.

(** Modelled from the spec: one transition of the executor's state machine
    (section 4.1), the executor being the framework's.  The cap is checked
    before a completion is requested; an action directive is executed in
    the next transition.  A completion that does not parse is recorded, when
    [handle_parsing_errors] is on, as a step whose observation is the
    parser's guidance and whose log is the completion (or, without
    guidance, a fixed message and the parser's error); when the option is
    off the run raises.  A tool that returns gives the observation of its
    step; a tool that raises ends the run: the failure is raised by
    [invoke] and no step is recorded. *)
Definition step (st : State) : State :=
  match st.(phase) with
  | AWAITING_COMPLETION =>
      if (cfg.(max_iterations) <=? st.(iterations))%nat
      then set_phase FAILED st
      else
        let completion := agent.(complete) st.(completions) (render st) in
        match agent.(parse) completion with
        | ActionDirective t i =>
            set_phase (EXECUTING_TOOL t i completion) (requested st)
        | FinalAnswer a => set_phase (DONE a) (requested st)
        | Unparsed error guidance =>
            if cfg.(handle_parsing_errors)
            then
              match guidance with
              | Some g =>
                  record_step (requested st) (Exception_ g) completion g st.(world)
              | None =>
                  record_step (requested st) (Exception_ invalid_response)
                    error invalid_response st.(world)
              end
            else set_phase (RAISED (parsing_error error)) (requested st)
        end
  | EXECUTING_TOOL t i lg =>
      match lookup_tool t tools with
      | Some tool =>
          match tool.(execute) i st.(world) with
          | (Returned out, w) => record_step st (Invoke t i) lg out w
          | (Raised failure, w) => set_phase (RAISED failure) (set_world w st)
          end
      | None => record_step st (Invoke t i) lg (invalid_tool t) st.(world)
      end
  | DONE _ => st
  | FAILED => st
  | RAISED _ => st
  end.

(** The result of a terminal state. *)
Definition result_of (st : State) : option Result :=
  match st.(phase) with
  | DONE a => Some (Answer a st.(steps))
  | FAILED => Some (IterationLimit st.(steps))
  | RAISED failure => Some (Raises failure)
  | _ => None
  end.

(** Modelled from the spec: the executor's run, as the machine iterated for
    at most [fuel] transitions. *)
Fixpoint run (fuel : nat) (st : State) : option (Result * State) :=
  match result_of st with
  | Some r => Some (r, st)
  | None =>
      match fuel with
      | O => None
      | S f => run f (step st)
      end
  end.

(** The state after [n] transitions. *)
Fixpoint iterate (n : nat) (st : State) : State :=
  match n with
  | O => st
  | S k => iterate k (step st)
  end.

(** Transitions enough for any run: each counted step takes at most two. *)
Definition enough : nat := 2 * cfg.(max_iterations) + 1.

(** [agent_executor.invoke({"input": input})] *)
Definition invoke (w : World) : option (Result * State) :=
  run enough (initial w).

(** Transitions still possible from a state. *)
Definition budget (st : State) : nat :=
  match st.(phase) with
  | AWAITING_COMPLETION => 2 * (cfg.(max_iterations) - st.(iterations)) + 1
  | EXECUTING_TOOL _ _ _ => 2 * (cfg.(max_iterations) - S st.(iterations)) + 2
  | _ => 0
  end.

(** The bookkeeping of the machine: the steps recorded are the steps
    counted, the count stays within the cap, and below it while a tool
    runs. *)
Definition counted (st : State) : Prop :=
  length st.(steps) = st.(iterations) /\
  st.(iterations) <= cfg.(max_iterations) /\
  match st.(phase) with
  | EXECUTING_TOOL _ _ _ => st.(iterations) < cfg.(max_iterations)
  | _ => True
  end.

End Executor.

Arguments Invoke {Input} tool input.
Arguments Exception_ {Input} tool_input.
Arguments ActionDirective {Input} tool input.
Arguments FinalAnswer {Input} answer.
Arguments Unparsed {Input} error guidance.
Arguments AWAITING_COMPLETION {Input}.
Arguments EXECUTING_TOOL {Input} tool input log.
Arguments DONE {Input} answer.
Arguments FAILED {Input}.
Arguments RAISED {Input} failure.
Arguments Answer {Input} answer steps.
Arguments IterationLimit {Input} steps.
Arguments Raises {Input} failure.

(** [AgentExecutor(agent=agent, tools=tools, verbose=True,
    handle_parsing_errors=True)]: the call of [agents/recon.py],
    [scripts/langgraph_react_ssrf.py] and [scripts/agentic_basic.py]; the
    cap on iterations is left to the framework's default. *)
Definition agent_executor (default_max_iterations : nat) : Config :=
  {| max_iterations := default_max_iterations;
     verbose := true;
     handle_parsing_errors := true |}.

End Loop.

(** ** The tools of the repository inside the executor *)
Module Agents.
Import Text Exc.

(** Everything outside the process that a tool can reach. *)
Record World : Type := {
  disk : Files.Disk;
  sent : Http.Trace
}.

(** The structured input of a tool call, one shape per declared schema
    ([HttpInput], [SearchInput]). *)
Inductive ToolInput : Type :=
| HttpArgs (args : Http.HttpInput)
| QueryArgs (query : string).

Definition on_disk {A} (m : M Files.Disk A) : M World A :=
  fun w => let '(r, d) := m w.(disk) in (r, {| disk := d; sent := w.(sent) |}).

Definition on_net {A} (m : M Http.Trace A) : M World A :=
  fun w => let '(r, t) := m w.(sent) in (r, {| disk := w.(disk); sent := t |}).

(** The failure of an input that does not fit the schema of the tool. *)
Definition schema_mismatch : string := "ValidationError: the input does not match the schema".

Definition Tool : Type := Loop.Tool World ToolInput.

Section Libraries.
Context `{Http.Httpx} `{Search.Faiss}.

(** [HttpTool]: its name, description and [_run]; the class sets no option
    of the framework. *)
Definition HttpTool : Tool :=
  {| Loop.name := Http.name;
     Loop.description := Http.description;
     Loop.execute := fun i =>
       match i with
       | HttpArgs a => on_net (Http._run a.(Http.url) a.(Http.method) a.(Http.data))
       | _ => raise schema_mismatch
       end |}.

(** [CustomSearchTool]: its name, description and [_run], whose result the
    executor turns into text; the class sets no option of the framework. *)
Definition CustomSearchTool : Tool :=
  {| Loop.name := Search.name;
     Loop.description := Search.description;
     Loop.execute := fun i =>
       match i with
       | QueryArgs q =>
           on_disk (docs <- Search._run q ;; ret (Search.str_documents docs))%exc
       | _ => raise schema_mismatch
       end |}.

(** [tools = [CustomSearchTool()]] of [scripts/agentic_basic.py] *)
Definition basic_tools : list Tool := [CustomSearchTool].

End Libraries.

End Agents.

(** ** Concrete surroundings, for running the definitions *)
Module Demo.
Import Text Exc Unicode.

(** An outside world with one reachable host, the flag server. *)
#[export] Instance httpx : Http.Httpx :=
  {| Http.answer := fun _ c =>
       if String.eqb c.(Http.call_url) "http://localhost:8080/"
       then Returned {| Http.headers := [("Content-type", "text/plain")];
                        Http.text := "Hello, world!" |}
       else Raised "All connection attempts failed";
     Http.str_headers := fun hs =>
       "Headers({" ++ join ", " (map (fun kv => fst kv ++ ": " ++ snd kv) hs) ++ "})" |}.

#[export] Instance server_lib : FlagServer.HttpServerLib :=
  {| FlagServer.version_string := "BaseHTTP/0.6 Python/3.11.2";
     FlagServer.date_time_string := "Tue, 03 Nov 2026 00:00:00 GMT" |}.

(** A vector store whose index is the list of its chunks, kept in two
    files of a folder; the search keeps the chunks that start with the
    query. *)
#[export] Instance faiss : Search.Faiss :=
  {| Search.Embeddings := string;
     Search.Index := list string;
     Search.Document := string;
     Search.BedrockEmbeddings := fun model_id => Returned model_id;
     Search.load_local := fun folder _ _ d =>
       match Files.node_at d (folder ++ "/index.faiss"),
             Files.node_at d (folder ++ "/index.pkl") with
       | Some (Files.File faiss), Some (Files.File pkl) =>
           if String.eqb faiss "" then Raised ("Error in " ++ folder ++ "/index.faiss")
           else Returned (split ";"%char pkl)
       | _, _ =>
           Raised ("could not open " ++ folder ++ "/index.faiss for reading")
       end;
     Search.similarity_search := fun db q => Returned (filter (prefix q) db);
     Search.str_documents := fun docs => "[" ++ join ", " docs ++ "]" |}.

(** The same store without credentials for the embedding model. *)
Definition faiss_without_credentials : Search.Faiss :=
  {| Search.Embeddings := string;
     Search.Index := list string;
     Search.Document := string;
     Search.BedrockEmbeddings := fun _ => Raised "NoCredentialsError: Unable to locate credentials";
     Search.load_local := fun _ _ _ _ => Returned [];
     Search.similarity_search := fun db q => Returned (filter (prefix q) db);
     Search.str_documents := fun docs => "[" ++ join ", " docs ++ "]" |}.

Definition app_js : string :=
  "const express = require('express');" ++ nl ++
  "const app = express();" ++ nl ++
  "app.listen(3000);" ++ nl.

(** A disk with the cloned repository under the working directory and a
    file beside it. *)
Definition disk : Files.Disk :=
  {| Files.tree :=
       Files.Dir
         [("work", Files.Dir
            [("repo", Files.Dir
               [("app.js", Files.File app_js);
                ("routes", Files.Dir [("login.js", Files.File "login")])]);
             (".env", Files.File "AWS_SECRET_ACCESS_KEY=hunter2")])];
     Files.cwd := ["work"] |}.

Definition world : Agents.World := {| Agents.disk := disk; Agents.sent := [] |}.

(** The request of the probe of a host that cannot be reached. *)
Definition unreachable : Http.Call :=
  {| Http.call_verb := Http.GET; Http.call_url := "http://10.255.255.1/";
     Http.call_data := None; Http.call_timeout := None |}.

(** The guidance a parser sends back for a completion of neither shape. *)
Definition missing_action : string :=
  "Invalid Format: Missing 'Action:' after 'Thought:'".

(** A parser of completions for the runs below: a final answer starts with
    its directive, the other texts it knows are tool calls, and every other
    text fails to parse, with guidance for the model. *)
Definition parse (completion : string) : Loop.Parsed Agents.ToolInput :=
  if prefix "Final Answer: " completion
  then Loop.FinalAnswer (substring 14 (String.length completion - 14) completion)
  else if String.eqb completion "Action: http_tool"
  then Loop.ActionDirective "http_tool"
         (Agents.HttpArgs (Http.HttpInput_of_url "http://10.255.255.1/"))
  else if String.eqb completion "Action: http_tool on the flag server"
  then Loop.ActionDirective "http_tool"
         (Agents.HttpArgs (Http.HttpInput_of_url "http://localhost:8080/"))
  else if String.eqb completion "Action: custom_search"
  then Loop.ActionDirective "custom_search" (Agents.QueryArgs "fetch")
  else Loop.Unparsed ("Could not parse LLM output: `" ++ completion ++ "`")
         (Some missing_action).

(** A model that repeats one completion whatever it is shown. *)
Definition repeating (completion : string) : Loop.Agent Agents.ToolInput :=
  {| Loop.prompt_text := "You are an expert security analyst";
     Loop.complete := fun _ _ => completion;
     Loop.parse := parse |}.

(** A model that answers after [n] completions of another kind. *)
Definition answering_after (n : nat) (completion : string) : Loop.Agent Agents.ToolInput :=
  {| Loop.prompt_text := "You are an expert security analyst";
     Loop.complete := fun k _ =>
       if (k <? n)%nat then completion else "Final Answer: done";
     Loop.parse := parse |}.

(** A state in which the model has just asked for a tool. *)
Definition calling (tool : string) (i : Agents.ToolInput) (completion : string)
  : Loop.State Agents.World Agents.ToolInput :=
  {| Loop.phase := Loop.EXECUTING_TOOL tool i completion; Loop.steps := [];
     Loop.iterations := 0; Loop.completions := 1; Loop.world := world |}.

End Demo.


(** ** A process with a standard output *)
Module Proc.
Import Text Exc.

(** What a script can reach besides its own variables: an outside of some
    kind, and the lines it has printed (one entry for each call of
    [print]). *)
Record Process (Outside : Type) : Type := {
  outside : Outside;
  stdout : list string
}.
Arguments outside {Outside} p.
Arguments stdout {Outside} p.

Section Process.
Context {Outside : Type}.

(** [print(line)] *)
Definition print (line : string) : M (Process Outside) unit :=
  fun p => (Returned tt,
            {| outside := p.(outside); stdout := (p.(stdout) ++ [line])%list |}).

(** A call that touches the outside only. *)
Definition on_outside {A} (m : M Outside A) : M (Process Outside) A :=
  fun p => let '(r, o) := m p.(outside) in
           (r, {| outside := o; stdout := p.(stdout) |}).

(** [try: body / except Exception as e: handler(str(e))], where
    [is_Exception] tells the failures that derive from [Exception]; the
    others ([KeyboardInterrupt], [SystemExit]) pass through the clause. *)
Definition try_except {A} (is_Exception : string -> bool)
    (body : M (Process Outside) A)
    (handler : string -> M (Process Outside) A) : M (Process Outside) A :=
  fun p =>
    match body p with
    | (Raised e, p') => if is_Exception e then handler e p' else (Raised e, p')
    | done => done
    end.

End Process.

(** [str(n)] for a natural number. *)
Definition str_nat (n : nat) : string :=
  DecimalString.NilZero.string_of_uint (Nat.to_uint n).

(** [c * n] for a one-character string. *)
Fixpoint times (c : ascii) (n : nat) : string :=
  match n with
  | O => ""
  | S k => String c (times c k)
  end.

End Proc.

(** ** agents/tools/http_tools.py: the tool used several times *)
Module HttpUse.
Import Text Exc Http.

(** The request a tool input leads to. *)
Definition call_of (a : HttpInput) : Call :=
  chosen_call a.(url) a.(method) a.(data).

Section Tool.
Context `{Httpx}.

(** The requests on the wire after the tool was invoked on each input in
    turn, whether an invocation returned or raised. *)
Fixpoint trace_after (inputs : list HttpInput) (sent : Trace) : Trace :=
  match inputs with
  | [] => sent
  | a :: rest =>
      trace_after rest (snd (_run a.(url) a.(method) a.(data) sent))
  end.

End Tool.

(** Whether a text is free of line feeds, as the [repr] of a Python object
    is. *)
Fixpoint no_line_feed (s : string) : bool :=
  match s with
  | EmptyString => true
  | String c r => negb (Ascii.eqb c (ascii_of_nat 10)) && no_line_feed r
  end.

End HttpUse.

(** ** agents/recon.py and scripts/langgraph_react_ssrf.py: the clone of the
    repository under analysis *)
Module Setup.
Import Text Exc Proc.

Definition repo_url : string := "https://github.com/juice-shop/juice-shop.git".
Definition repo_path : string := "./repo".

Fixpoint ends_with (c : ascii) (s : string) : bool :=
  match s with
  | EmptyString => false
  | String x EmptyString => Ascii.eqb x c
  | String _ r => ends_with c r
  end.

(** [os.path.join(a, b)] *)
Definition path_join (a b : string) : string :=
  if prefix "/" b then b
  else if String.eqb a "" || ends_with "/"%char a then a ++ b
  else a ++ "/" ++ b.

(** [os.path.isdir(p)] *)
Definition isdir (p : string) (d : Files.Disk) : bool :=
  match Files.node_at d p with
  | Some (Files.Dir _) => true
  | _ => false
  end.

(** [git.Repo.clone_from(url, to_path)]: what it does to the disk, and
    whether it returns or raises, is the library's; a failure is the text
    [str(e)] gives, which may span several lines, and [is_Exception] tells
    whether its class derives from [Exception] (an interrupt from the
    keyboard while git runs does not). *)
Class Git : Type := {
  clone_from : string -> string -> M Files.Disk unit;
  is_Exception : string -> bool
}.

(** The outside of the script: the disk, and the clones asked of git, in
    order. *)
Record Outside : Type := {
  disk : Files.Disk;
  clones : list (string * string)
}.

Section Script.
Context `{Git}.

Definition git_clone (url to_path : string) : M (Process Outside) unit :=
  on_outside (fun o =>
    let '(r, d) := clone_from url to_path o.(disk) in
    (r, {| disk := d; clones := (o.(clones) ++ [(url, to_path)])%list |})).

(** Whether [repo_path] already holds a repository. *)
Definition has_repository (d : Files.Disk) : bool :=
  isdir repo_path d && isdir (path_join repo_path ".git") d.

(** The block that follows [load_dotenv()] in both scripts:
    [if os.path.isdir(repo_path) and os.path.isdir(os.path.join(repo_path, ".git")): ...
     else: try: ... except Exception as e: ...] *)
Definition fetch_repository : M (Process Outside) unit :=
  fun p =>
    if has_repository p.(outside).(disk)
    then print "Directory already contains a git repository." p
    else
      try_except is_Exception
        (repo <- git_clone repo_url repo_path ;;
         print ("Repository cloned into: " ++ repo_path))%exc
        (fun e => print ("An error occurred while cloning the repository: " ++ e))
        p.

End Script.

End Setup.

(** ** agents/recon.py: [analyze_code] *)
Module Recon.
Import Text Exc Proc.

Section Analyze.
Variables Outside Input : Type.

(** [str(action.tool_input)] *)
Variable str_input : Input -> string.

(** The framework's [AgentAction], as far as the script reads it. *)
Record AgentAction : Type := {
  tool : string;
  tool_input : Input
}.

(** The dictionary [agent_executor.invoke] returns; the key
    [intermediate_steps] may be missing. *)
Record Response : Type := {
  input : string;
  output : string;
  intermediate_steps : option (list (AgentAction * string))
}.

(** [agent_executor.invoke({"input": input}, return_intermediate_steps=flag)] *)
Variable invoke : string -> bool -> M Outside Response.

(** The bytes of the emoji that opens the heading. *)
Definition brain : string :=
  String (ascii_of_nat 240) (String (ascii_of_nat 159)
    (String (ascii_of_nat 167) (String (ascii_of_nat 160) EmptyString))).

(** The body of [for i, (action, observation) in enumerate(steps, 1)],
    with [i] the number of the first step of [steps]. *)
Fixpoint print_steps (i : nat) (steps : list (AgentAction * string))
  : M (Process Outside) unit :=
  match steps with
  | [] => ret tt
  | (action, observation) :: rest =>
      (print ("Step " ++ str_nat i ++ ":") ;;
       print ("  Action: " ++ action.(tool) ++ " - " ++ str_input action.(tool_input)) ;;
       print ("  Observation: " ++ observation) ;;
       print "" ;;
       print_steps (S i) rest)%exc
  end.

(** [analyze_code] of [agents/recon.py] *)
Definition analyze_code (input_code : string) : M (Process Outside) Response :=
  (response <- on_outside (invoke input_code true) ;;
   (match response.(intermediate_steps) with
    | Some (first :: rest) =>
        print (nl ++ brain ++ " Agent Thinking Process:") ;;
        print (times "-"%char 40) ;;
        print_steps 1 (first :: rest)
    | _ => ret tt
    end) ;;
   ret response)%exc.

(** [analyze_code] of [scripts/langgraph_react_ssrf.py], where the report
    is commented out. *)
Definition analyze_code_quiet (input_code : string) : M (Process Outside) Response :=
  (response <- on_outside (invoke input_code true) ;;
   ret response)%exc.

(** The entries the loop of [print_steps] adds to the output, as a list. *)
Fixpoint step_lines (i : nat) (steps : list (AgentAction * string)) : list string :=
  match steps with
  | [] => []
  | (action, observation) :: rest =>
      ("Step " ++ str_nat i ++ ":")
        :: ("  Action: " ++ action.(tool) ++ " - " ++ str_input action.(tool_input))
        :: ("  Observation: " ++ observation)
        :: "" :: step_lines (S i) rest
  end.

End Analyze.

Arguments tool {Input} a.
Arguments tool_input {Input} a.
Arguments input {Input} r.
Arguments output {Input} r.
Arguments intermediate_steps {Input} r.

End Recon.

(** ** scripts/agentic_basic.py: the names of the module as it is executed *)
Module Script.
Import Text Exc.

(** The interpreter while it executes the statements of a module, as far as
    names go: the global names bound so far, and the line of the statement
    being executed.  What is kept of a statement is the line it starts on,
    the global names it reads, in the order it reads them (built-in names
    left out), and the name it binds. *)
Record Interp : Type := {
  bound : list string;
  line : nat
}.

Definition start : Interp := {| bound := []; line := 0 |}.

Definition is_bound (x : string) (i : Interp) : bool :=
  existsb (String.eqb x) i.(bound).

Section Run.

(** The statements that fail for a reason of their own when executed (a
    package that is not installed, a credential that is missing), by the
    line they start on, with the failure. *)
Variable fails : nat -> option string.

Definition at_line (l : nat) : M Interp unit :=
  fun i => (Returned tt, {| bound := i.(bound); line := l |}).

(** The look-up of a global name. *)
Definition read (x : string) : M Interp unit :=
  fun i =>
    if is_bound x i then (Returned tt, i)
    else (Raised ("NameError: name '" ++ x ++ "' is not defined"), i).

Fixpoint reads (xs : list string) : M Interp unit :=
  match xs with
  | [] => ret tt
  | x :: r => (read x ;; reads r)%exc
  end.

(** The work of the statement itself, once its names are looked up. *)
Definition evaluate (l : nat) : M Interp unit :=
  fun i =>
    match fails l with
    | Some failure => (Raised failure, i)
    | None => (Returned tt, i)
    end.

Definition bind_name (x : string) : M Interp unit :=
  fun i => (Returned tt, {| bound := x :: i.(bound); line := i.(line) |}).

Fixpoint bind_names (xs : list string) : M Interp unit :=
  match xs with
  | [] => ret tt
  | x :: r => (bind_name x ;; bind_names r)%exc
  end.

(** [from m import a, b] and [import m] *)
Definition from_import (l : nat) (names : list string) : M Interp unit :=
  (at_line l ;; evaluate l ;; bind_names names)%exc.

(** [target = expression] *)
Definition assign (l : nat) (target : string) (uses : list string) : M Interp unit :=
  (at_line l ;; reads uses ;; evaluate l ;; bind_name target)%exc.

(** [class name(bases): body]: the bases, then the values and annotations
    of the body, are evaluated when the statement is executed. *)
Definition class_def (l : nat) (name : string) (uses : list string) : M Interp unit :=
  assign l name uses.

(** [def name(parameters) -> annotation: body]: the body is not executed. *)
Definition def (l : nat) (name : string) (uses : list string) : M Interp unit :=
  assign l name uses.

(** An expression statement. *)
Definition call (l : nat) (uses : list string) : M Interp unit :=
  (at_line l ;; reads uses ;; evaluate l)%exc.

(** [scripts/agentic_basic.py], statement by statement; [as_main] says
    whether the file is run as a script. *)
Definition agentic_basic (as_main : bool) : M Interp unit :=
  (from_import 1 ["create_react_agent"] ;;
   from_import 2 ["ChatBedrock"] ;;
   from_import 3 ["PromptTemplate"] ;;
   from_import 4 ["AgentExecutor"] ;;
   from_import 5 ["BaseModel"; "Field"] ;;
   from_import 6 ["BaseTool"] ;;
   from_import 7 ["FAISS"] ;;
   from_import 8 ["BedrockEmbeddings"] ;;
   from_import 9 ["Optional"; "Type"] ;;
   from_import 10 ["CallbackManagerForToolRun"] ;;
   from_import 11 ["load_dotenv"] ;;
   from_import 12 ["os"] ;;
   call 15 ["load_dotenv"] ;;
   class_def 18 "SearchInput" ["BaseModel"; "Field"] ;;
   class_def 22 "CustomSearchTool"
     ["BaseTool"; "SearchInput"; "Type"; "SearchInput";
      "Optional"; "CallbackManagerForToolRun";
      "Optional"; "CallbackManagerForToolRun"] ;;
   assign 46 "tools" ["CustomSearchTool"] ;;
   assign 47 "llm" ["ChatBedrock"] ;;
   assign 53 "instructions" [] ;;
   assign 120 "examples" [] ;;
   assign 184 "example_prompt" ["ChatPromptTemplate"] ;;
   assign 191 "few_shot_prompt"
     ["FewShotChatMessagePromptTemplate"; "example_prompt"; "examples"] ;;
   assign 196 "prompt" ["ChatPromptTemplate"; "instructions"; "few_shot_prompt"] ;;
   assign 205 "agent" ["create_react_agent"; "llm"; "tools"; "prompt"] ;;
   assign 206 "agent_executor" ["AgentExecutor"; "agent"; "tools"] ;;
   def 211 "analyze_code" [] ;;
   if as_main
   then (assign 221 "input_code" [] ;;
         assign 228 "result" ["analyze_code"; "input_code"] ;;
         call 229 ["result"])
   else ret tt)%exc.

End Run.

End Script.

(** ** Concrete surroundings for the scripts *)
Module Fixtures.
Import Text Exc.

(** A disk on which nothing was cloned yet, and the same disk after a
    clone. *)
Definition empty_disk : Files.Disk :=
  {| Files.tree := Files.Dir [("work", Files.Dir [])];
     Files.cwd := ["work"] |}.

Definition cloned_disk : Files.Disk :=
  {| Files.tree :=
       Files.Dir
         [("work", Files.Dir
            [("repo", Files.Dir
               [(".git", Files.Dir [("HEAD", Files.File "ref: refs/heads/master")]);
                ("app.js", Files.File Demo.app_js)])])];
     Files.cwd := ["work"] |}.

(** A git that clones over https and has no other transport. *)
#[export] Instance git : Setup.Git :=
  {| Setup.clone_from := fun url _ d =>
       if prefix "https://" url then (Returned tt, cloned_disk)
       else (Raised "fatal: unable to access the remote", d);
     Setup.is_Exception := fun e => negb (String.eqb e "KeyboardInterrupt") |}.

(** The text of a clone that git refuses: the command, its exit status and
    what it wrote, on three lines. *)
Definition refused : string :=
  "Cmd('git') failed due to: exit code(128)" ++ nl ++
  "  cmdline: git clone -v -- https://github.com/juice-shop/juice-shop.git ./repo" ++ nl ++
  "  stderr: 'fatal: unable to access the remote'".

(** A git without network. *)
Definition git_offline : Setup.Git :=
  {| Setup.clone_from := fun _ _ d => (Raised refused, d);
     Setup.is_Exception := fun e => negb (String.eqb e "KeyboardInterrupt") |}.

(** A git that is interrupted from the keyboard. *)
Definition git_interrupted : Setup.Git :=
  {| Setup.clone_from := fun _ _ d => (Raised "KeyboardInterrupt", d);
     Setup.is_Exception := fun e => negb (String.eqb e "KeyboardInterrupt") |}.

Definition fresh_process (d : Files.Disk) : Proc.Process Setup.Outside :=
  {| Proc.outside := {| Setup.disk := d; Setup.clones := [] |};
     Proc.stdout := [] |}.

(** An executor that reports two steps. *)
Definition two_steps : list (Recon.AgentAction string * string) :=
  [({| Recon.tool := "list_directory"; Recon.tool_input := "./repo" |}, "app.js");
   ({| Recon.tool := "view_file"; Recon.tool_input := "./repo/app.js" |}, Demo.app_js)].

Definition invoke (input : string) (steps : bool) : M unit (Recon.Response string) :=
  fun o =>
    if String.eqb input "" then (Raised "ValueError: empty input", o)
    else (Returned {| Recon.input := input;
                      Recon.output := "no finding";
                      Recon.intermediate_steps :=
                        if steps then Some two_steps else None |}, o).

End Fixtures.

(* ================================================================== *)
(** * Part II: properties                                              *)
(* ================================================================== *)


(** ** Case mappings against a word *)
Module SpellingSpec.
Import Unicode Spelling.

Lemma str_eqb_eq (a : str) : forall b, str_eqb a b = true <-> a = b.
Proof.
  induction a as [|x a IH]; intros [|y b]; simpl; split; try discriminate; auto.
  - intro E. apply andb_prop in E as [Exy Eab].
    apply N.eqb_eq in Exy. apply IH in Eab. congruence.
  - intro E. injection E as -> ->. rewrite N.eqb_refl. simpl. apply IH. reflexivity.
Qed.

Lemma mem_In (c : N) (l : list N) : mem c l = true <-> In c l.
Proof.
  unfold mem. rewrite existsb_exists. split.
  - intros (x & Hx & E). apply N.eqb_eq in E. subst. exact Hx.
  - intro H. exists c. split; [exact H | apply N.eqb_refl].
Qed.

Lemma mem_str_In (m : str) (l : list str) : mem_str m l = true <-> In m l.
Proof.
  unfold mem_str. rewrite existsb_exists. split.
  - intros (x & Hx & E). apply str_eqb_eq in E. subst. exact Hx.
  - intro H. exists m. split; [exact H | apply str_eqb_eq; reflexivity].
Qed.

Lemma assoc_In (c : N) (table : list (N * list N)) (u : list N) :
  assoc c table = Some u -> In (c, u) table.
Proof.
  induction table as [|[k v] rest IH]; simpl; [discriminate|].
  destruct (N.eqb_spec c k) as [->|_].
  - intro E. injection E as ->. left. reflexivity.
  - intro E. right. apply IH. exact E.
Qed.

Lemma words_spec (alphabet : list N) (n : nat) (m : str) :
  In m (words alphabet n) <-> (length m = n /\ Forall (fun c => In c alphabet) m).
Proof.
  revert m. induction n as [|n IH]; intro m; simpl.
  - split.
    + intros [<-|[]]. split; [reflexivity | constructor].
    + intros [L _]. destruct m; [left; reflexivity | discriminate].
  - rewrite in_flat_map. split.
    + intros (c & Hc & Hm). apply in_map_iff in Hm as (m' & <- & Hm').
      apply IH in Hm' as [L F]. split; [simpl; congruence | constructor; assumption].
    + intros [L F]. destruct m as [|c m']; [discriminate|].
      inversion F as [|? ? Hc F']; subst. exists c. split; [exact Hc|].
      apply in_map. apply IH. split; [simpl in L; congruence | exact F'].
Qed.

Lemma words_upto_spec (alphabet : list N) (n : nat) (m : str) :
  In m (words_upto alphabet n)
  <-> (length m <= n /\ Forall (fun c => In c alphabet) m).
Proof.
  induction n as [|n IH].
  - change (words_upto alphabet 0) with (words alphabet 0).
    rewrite words_spec. split; intros [L F]; split; auto; lia.
  - cbn [words_upto]. rewrite in_app_iff, IH, words_spec. split.
    + intros [[L F]|[L F]]; split; auto; lia.
    + intros [L F]. destruct (Nat.eq_dec (length m) (S n)); [right|left]; split; auto; lia.
Qed.

(** A piece in the middle of a word is a run of it. *)
Lemma infix_of_middle (l1 x l2 : str) :
  x <> [] -> infix_of x (l1 ++ x ++ l2)%list = true.
Proof.
  intro Hx. unfold infix_of. apply existsb_exists.
  exists (length l1). split.
  - apply in_seq. rewrite !length_app. destruct x; [contradiction|simpl; lia].
  - apply existsb_exists. exists (length x). split.
    + apply in_seq. rewrite !length_app. destruct x; [contradiction|simpl; lia].
    + apply str_eqb_eq. rewrite skipn_app, skipn_all, Nat.sub_diag. simpl.
      rewrite firstn_app, firstn_all, Nat.sub_diag. simpl. rewrite app_nil_r.
      reflexivity.
Qed.

Lemma infix_of_one (c : N) (w : str) : infix_of [c] w = true -> In c w.
Proof.
  unfold infix_of. intro H. apply existsb_exists in H as (k & _ & H).
  apply existsb_exists in H as (j & _ & H). apply str_eqb_eq in H.
  assert (Hin : In c (firstn j (skipn k w))) by (rewrite <- H; left; reflexivity).
  rewrite <- (firstn_skipn k w). apply in_or_app. right.
  rewrite <- (firstn_skipn j (skipn k w)). apply in_or_app. left. exact Hin.
Qed.

Section Word.
Variable table : list (N * list N).
Variable w : str.
Variable alphabet : list N.
Variable spellings : list str.
Variable small : list (N * list N).

Hypothesis moved_is_not_empty :
  forallb (fun e => negb (is_nil (snd e))) table = true.
Hypothesis moved_to_a_piece :
  forallb (fun e => implb (infix_of (snd e) w) (mem (fst e) alphabet)) table = true.
Hypothesis letters_of_the_word :
  forallb (fun c => mem c alphabet) w = true.
Hypothesis spellings_are_words :
  forallb (fun m => mem_str m (words_upto alphabet (length w))) spellings = true.
Hypothesis small_agrees :
  forallb (fun c => str_eqb (mapped table c) (mapped small c)) alphabet = true.
Hypothesis words_checked :
  forallb (fun m => Bool.eqb (str_eqb (flat_map (mapped small) m) w)
                      (mem_str m spellings))
    (words_upto alphabet (length w)) = true.

Lemma small_is_enough (m : str) :
  In m (words_upto alphabet (length w)) ->
  flat_map (mapped table) m = flat_map (mapped small) m.
Proof.
  intro Hin. apply words_upto_spec in Hin as [_ F].
  induction F as [|c m Hc F IH]; simpl; [reflexivity|].
  rewrite IH. f_equal. rewrite forallb_forall in small_agrees.
  apply str_eqb_eq. apply small_agrees. exact Hc.
Qed.

Lemma mapped_not_empty (c : N) : mapped table c <> [].
Proof.
  unfold mapped. destruct (assoc c table) as [u|] eqn:E; [|discriminate].
  apply assoc_In in E. rewrite forallb_forall in moved_is_not_empty.
  specialize (moved_is_not_empty _ E). simpl in moved_is_not_empty.
  destruct u; [discriminate | discriminate].
Qed.

Lemma mapped_piece (c : N) : infix_of (mapped table c) w = true -> In c alphabet.
Proof.
  unfold mapped. destruct (assoc c table) as [u|] eqn:E; intro H.
  - apply assoc_In in E. rewrite forallb_forall in moved_to_a_piece.
    specialize (moved_to_a_piece _ E). simpl in moved_to_a_piece.
    rewrite H in moved_to_a_piece. apply mem_In. exact moved_to_a_piece.
  - apply infix_of_one in H. rewrite forallb_forall in letters_of_the_word.
    apply mem_In. apply letters_of_the_word. exact H.
Qed.

Lemma flat_map_length_le (m : str) : length m <= length (flat_map (mapped table) m).
Proof.
  induction m as [|c m IH]; simpl; [lia|].
  rewrite length_app. pose proof (mapped_not_empty c) as Hc.
  destruct (mapped table c); [contradiction | simpl; lia].
Qed.

Lemma letters_of_a_spelling (m : str) :
  flat_map (mapped table) m = w -> In m (words_upto alphabet (length w)).
Proof.
  intro E. apply words_upto_spec. split.
  - rewrite <- E. apply flat_map_length_le.
  - apply Forall_forall. intros c Hc.
    apply in_split in Hc as (m1 & m2 & ->).
    rewrite flat_map_app in E. simpl in E.
    apply mapped_piece. rewrite <- E.
    apply infix_of_middle. apply mapped_not_empty.
Qed.

(** The texts the mapping sends to the word are the spellings, and no
    other. *)
Lemma mapped_to_the_word (m : str) :
  str_eqb (flat_map (mapped table) m) w = mem_str m spellings.
Proof.
  rewrite forallb_forall in words_checked.
  destruct (str_eqb (flat_map (mapped table) m) w) eqn:E.
  - apply str_eqb_eq in E. pose proof (letters_of_a_spelling m E) as Hin.
    specialize (words_checked _ Hin). simpl in words_checked.
    apply str_eqb_eq in E. rewrite <- (small_is_enough m Hin), E in words_checked.
    destruct (mem_str m spellings); [reflexivity | discriminate].
  - destruct (mem_str m spellings) eqn:S; [|reflexivity].
    rewrite forallb_forall in spellings_are_words.
    apply mem_str_In in S. specialize (spellings_are_words _ S).
    apply mem_str_In in spellings_are_words.
    specialize (words_checked _ spellings_are_words). simpl in words_checked.
    rewrite <- (small_is_enough m spellings_are_words), E in words_checked.
    apply mem_str_In in S. rewrite S in words_checked. discriminate.
Qed.

End Word.

(** [method.upper() == "POST"] holds of the thirty-two spellings, and of
    no other text. *)
Lemma upper_is_POST (m : str) :
  str_eqb (upper m) (codes "POST") = spells_post m.
Proof.
  apply (mapped_to_the_word uppercase (codes "POST") post_letters post_spellings
           post_upper);
    vm_compute; reflexivity.
Qed.

(** The texts that match POST when case is ignored are the same
    thirty-two. *)
Lemma caseless_POST (m : str) :
  caseless m (codes "POST") = spells_post m.
Proof.
  change (caseless m (codes "POST"))
    with (str_eqb (flat_map (mapped casefolded) m) (codes "post")).
  apply (mapped_to_the_word casefolded (codes "post") post_letters post_spellings
           post_folded);
    vm_compute; reflexivity.
Qed.

(** The test of the code is the caseless match. *)
Lemma upper_is_POST_iff_caseless (m : str) :
  str_eqb (upper m) (codes "POST") = caseless m (codes "POST").
Proof. rewrite upper_is_POST, caseless_POST. reflexivity. Qed.

End SpellingSpec.

(** ** The HTTP probe tool *)
Module HttpSpec.
Import Text Exc Unicode Http.

(** The tool in one equation: one call, chosen by caseless matching of the
    method with POST, and the text or the failure that comes of it. *)
Lemma run_unfold `{Httpx} (url : string) (method : str) (data : option dict)
    (sent : Trace) :
  _run url method data sent =
    (match answer sent (chosen_call url method data) with
     | Returned response =>
         Returned ("Headers:" ++ nl ++ str_headers (headers response) ++ nl ++ nl
                   ++ "Body:" ++ nl ++ text response)
     | Raised failure => Raised failure
     end,
     (sent ++ [chosen_call url method data])%list).
Proof.
  unfold _run, bind, chosen_call.
  rewrite SpellingSpec.upper_is_POST_iff_caseless.
  destruct (caseless method (codes "POST"));
    unfold httpx_post, httpx_get, request;
    match goal with |- context [answer sent ?c] => destruct (answer sent c) end;
    reflexivity.
Qed.

(** C4: every invocation of the HTTP probe tool hands exactly one request to
    the library: a POST carrying the body when the method is POST (in any
    spelling that matches POST caselessly), otherwise a GET.  It passes no
    timeout and asks for no retry (a failure of that one request is passed
    on), and on a response returns one text: the headers followed by the
    body. *)
Theorem run_issues_one_request `{Httpx}
    (url : string) (method : str) (data : option dict) (sent : Trace) :
  let call :=
    if caseless method (codes "POST")
    then {| call_verb := POST; call_url := url; call_data := data; call_timeout := None |}
    else {| call_verb := GET; call_url := url; call_data := None; call_timeout := None |} in
  snd (_run url method data sent) = (sent ++ [call])%list /\
  call_timeout call = None /\
  fst (_run url method data sent) =
    match answer sent call with
    | Returned response =>
        Returned ("Headers:" ++ nl ++ str_headers (headers response) ++ nl ++ nl
                  ++ "Body:" ++ nl ++ text response)
    | Raised failure => Raised failure
    end.
Proof.
  cbv zeta. rewrite run_unfold. unfold chosen_call.
  destruct (caseless method (codes "POST")); simpl; auto.
Qed.

(** C9: a method that does not match POST with case ignored (DELETE, or any
    other text) makes the tool issue a GET that carries no body, whatever
    data was supplied; a method that matches POST with case ignored sends
    the data in a POST. *)
Theorem run_sends_body_only_for_post `{Httpx}
    (url : string) (method : str) (data : option dict) (sent : Trace) :
  (caseless method (codes "POST") = false ->
     snd (_run url method data sent)
     = (sent ++ [{| call_verb := GET; call_url := url; call_data := None;
                    call_timeout := None |}])%list
     /\ forall data', _run url method data' sent = _run url method data sent) /\
  (caseless method (codes "POST") = true ->
     snd (_run url method data sent)
     = (sent ++ [{| call_verb := POST; call_url := url; call_data := data;
                    call_timeout := None |}])%list).
Proof.
  split; intro E.
  - split.
    + rewrite run_unfold. unfold chosen_call. rewrite E. reflexivity.
    + intro data'. rewrite !run_unfold. unfold chosen_call. rewrite E. reflexivity.
  - rewrite run_unfold. unfold chosen_call. rewrite E. reflexivity.
Qed.

#[local] Existing Instance Demo.httpx.

Lemma run_sends_body_only_for_post_witness :
  (snd (_run "http://localhost:8080/" (codes "DELETE") (Some [("id", "7")]) [])
   = [{| call_verb := GET; call_url := "http://localhost:8080/"; call_data := None;
         call_timeout := None |}]
   /\ forall data', _run "http://localhost:8080/" (codes "DELETE") data' []
                    = _run "http://localhost:8080/" (codes "DELETE")
                        (Some [("id", "7")]) []) /\
  snd (_run "http://localhost:8080/" (codes "pOsT") (Some [("id", "7")]) [])
  = [{| call_verb := POST; call_url := "http://localhost:8080/";
        call_data := Some [("id", "7")]; call_timeout := None |}].
Proof.
  split.
  - exact (proj1 (run_sends_body_only_for_post
                    "http://localhost:8080/" (codes "DELETE") (Some [("id", "7")]) [])
                 eq_refl).
  - exact (proj2 (run_sends_body_only_for_post
                    "http://localhost:8080/" (codes "pOsT") (Some [("id", "7")]) [])
                 eq_refl).
Defined.

Example probe_flag_server :
  _run "http://localhost:8080/" (codes "get") None []
  = (Returned ("Headers:" ++ nl ++ "Headers({Content-type: text/plain})" ++ nl ++ nl
               ++ "Body:" ++ nl ++ "Hello, world!"),
     [{| call_verb := GET; call_url := "http://localhost:8080/"; call_data := None;
         call_timeout := None |}]).
Proof. vm_compute. reflexivity. Qed.

Example probe_unreachable :
  _run "http://10.255.255.1/" (codes "POST") (Some [("q", "1")]) []
  = (Raised "All connection attempts failed",
     [{| call_verb := POST; call_url := "http://10.255.255.1/";
         call_data := Some [("q", "1")]; call_timeout := None |}]).
Proof. vm_compute. reflexivity. Qed.

(** A method spelled with the long s (U+017F) and one spelled with the
    ligature of s and t (U+FB06) are POST to [str.upper], and to caseless
    matching; the Kelvin sign (U+212A) is no letter of POST. *)
Example probe_long_s :
  snd (_run "http://localhost:8080/" [112; 111; 383; 116]%N (Some [("q", "1")]) [])
  = [{| call_verb := POST; call_url := "http://localhost:8080/";
        call_data := Some [("q", "1")]; call_timeout := None |}]
  /\ snd (_run "http://localhost:8080/" [80; 79; 64262]%N (Some [("q", "1")]) [])
     = [{| call_verb := POST; call_url := "http://localhost:8080/";
           call_data := Some [("q", "1")]; call_timeout := None |}]
  /\ snd (_run "http://localhost:8080/" [80; 79; 83; 8490]%N (Some [("q", "1")]) [])
     = [{| call_verb := GET; call_url := "http://localhost:8080/";
           call_data := None; call_timeout := None |}].
Proof. vm_compute. auto. Qed.

(** The methods that reach [httpx.post] are the thirty-two spellings of
    POST. *)
Lemma post_spellings_reach_post `{Httpx}
    (url : string) (method : str) (data : option dict) (sent : Trace) :
  call_verb (chosen_call url method data)
  = (if Spelling.spells_post method then POST else GET).
Proof.
  unfold chosen_call. rewrite SpellingSpec.caseless_POST.
  destruct (Spelling.spells_post method); reflexivity.
Qed.

End HttpSpec.

(** ** The flag server *)
Module FlagServerSpec.
Import Text FlagServer.

Lemma append_assoc (a b c : string) : (a ++ b) ++ c = a ++ (b ++ c).
Proof. induction a as [|x a IH]; simpl; [reflexivity | rewrite IH; reflexivity]. Qed.

Lemma append_empty (a : string) : a ++ "" = a.
Proof. induction a as [|x a IH]; simpl; [reflexivity | rewrite IH; reflexivity]. Qed.

(** A header that is no Connection header is a line in the buffer, and
    nothing for a request of HTTP/0.9. *)
Lemma send_header_line (keyword value : string) (h : Handler) :
  String.eqb (lower keyword) "connection" = false ->
  send_header keyword value h
  = if is_0_9 h then h else buffer (keyword ++ ": " ++ value ++ crlf) h.
Proof. intro E. unfold send_header. rewrite E. reflexivity. Qed.

(** [do_GET] on a request of HTTP/0.9: the log entry and the body. *)
Lemma do_GET_0_9 `{HttpServerLib} (h : Handler) :
  is_0_9 h = true ->
  do_GET h = wfile_write "Hello, world!" (log_request 200 h).
Proof.
  intro E. unfold do_GET, send_response.
  rewrite !send_header_line by reflexivity.
  unfold send_response_only, end_headers.
  assert (L : is_0_9 (log_request 200 h) = true) by exact E.
  rewrite L. cbn beta iota zeta. rewrite !L. reflexivity.
Qed.

(** [do_GET] on any other request: five lines buffered and flushed, then
    the body. *)
Lemma do_GET_1_x `{HttpServerLib} (h : Handler) :
  is_0_9 h = false ->
  do_GET h
  = wfile_write "Hello, world!"
      (flush_headers
         (buffer crlf
            (buffer ("Content-type: text/plain" ++ crlf)
               (buffer ("Date: " ++ date_time_string ++ crlf)
                  (buffer ("Server: " ++ version_string ++ crlf)
                     (buffer ("HTTP/1.0 200 OK" ++ crlf) (log_request 200 h))))))).
Proof.
  intro E. unfold do_GET, send_response.
  rewrite !send_header_line by reflexivity.
  unfold send_response_only, end_headers.
  assert (L : forall l k, is_0_9 k = false -> is_0_9 (buffer l k) = false)
    by (intros l k K; exact K).
  assert (L0 : is_0_9 (log_request 200 h) = false) by exact E.
  rewrite L0. cbn beta iota zeta.
  change (protocol_version ++ " "
          ++ DecimalString.NilZero.string_of_uint (Nat.to_uint 200)
          ++ " " ++ match phrase 200 responses with Some p => p | None => "" end
          ++ crlf)
    with ("HTTP/1.0 200 OK" ++ crlf).
  rewrite !L by (repeat apply L; exact L0).
  reflexivity.
Qed.

(** C10, as the code has it: whatever the request line (its path
    included), [do_GET] logs status 200 and writes the body Hello, world!;
    before the body it writes the status line 200 OK, the headers Server,
    Date and Content-type: text/plain and the blank line, unless the
    request line named no protocol version (HTTP/0.9): then it writes
    the body alone. *)
Theorem do_GET_answer `{HttpServerLib} (verb target version : string) :
  let h := do_GET (serving verb target version) in
  wfile h
  = (if String.eqb version "HTTP/0.9" then ""
     else "HTTP/1.0 200 OK" ++ crlf
          ++ "Server: " ++ version_string ++ crlf
          ++ "Date: " ++ date_time_string ++ crlf
          ++ "Content-type: text/plain" ++ crlf
          ++ crlf)
    ++ "Hello, world!" /\
  logged h = [200] /\
  _headers_buffer h = [] /\
  close_connection h = true.
Proof.
  cbv zeta.
  destruct (String.eqb version "HTTP/0.9") eqn:E.
  - rewrite do_GET_0_9 by exact E. repeat split; reflexivity.
  - rewrite do_GET_1_x by exact E.
    repeat split; try reflexivity.
    cbn [wfile wfile_write flush_headers buffer log_request serving _headers_buffer
         app join].
    rewrite ?append_assoc, ?append_empty. reflexivity.
Qed.

#[local] Existing Instance Demo.server_lib.

(** A request line of two words, [GET /flag], is served as HTTP/0.9: the
    answer is the thirteen bytes of the body, with no status and no
    Content-type header. *)
Lemma do_GET_0_9_has_no_status :
  wfile (do_GET (serving "GET" "/flag" "HTTP/0.9")) = "Hello, world!" /\
  _headers_buffer (do_GET (serving "GET" "/flag" "HTTP/0.9")) = [].
Proof. vm_compute. auto. Qed.

Example do_GET_1_1 :
  wfile (do_GET (serving "GET" "/flag" "HTTP/1.1"))
  = "HTTP/1.0 200 OK" ++ crlf
    ++ "Server: BaseHTTP/0.6 Python/3.11.2" ++ crlf
    ++ "Date: Tue, 03 Nov 2026 00:00:00 GMT" ++ crlf
    ++ "Content-type: text/plain" ++ crlf
    ++ crlf
    ++ "Hello, world!".
Proof. vm_compute. reflexivity. Qed.

(** The answer does not depend on the command or on the path. *)
Lemma do_GET_ignores_path `{HttpServerLib} (verb target verb' target' version : string) :
  wfile (do_GET (serving verb target version))
  = wfile (do_GET (serving verb' target' version)).
Proof.
  destruct (String.eqb version "HTTP/0.9") eqn:E.
  - rewrite !do_GET_0_9 by exact E. reflexivity.
  - rewrite !do_GET_1_x by exact E. reflexivity.
Qed.

End FlagServerSpec.

(** ** The agent executor *)
Module LoopSpec.
Import Text Exc Loop.

Section Executor.
Variables World Input : Type.
Variable cfg : Config.
Variable agent : Agent Input.
Variable tools : ToolSet World Input.
Variable input : string.

#[local] Abbreviation State := (State World Input).
#[local] Abbreviation step := (step World Input cfg agent tools input).
#[local] Abbreviation run := (run World Input cfg agent tools input).
#[local] Abbreviation iterate := (iterate World Input cfg agent tools input).
#[local] Abbreviation invoke := (invoke World Input cfg agent tools input).
#[local] Abbreviation initial := (initial World Input).
#[local] Abbreviation budget := (budget World Input cfg).
#[local] Abbreviation result_of := (result_of World Input).
#[local] Abbreviation render := (render World Input agent tools input).

Ltac step_cases st :=
  unfold Loop.step;
  destruct (phase _ _ st) eqn:Hphase;
  [ destruct (max_iterations cfg <=? iterations _ _ st)%nat eqn:Hcap;
    [ | destruct (parse _ agent _) as [ | | error guidance] eqn:Hparse;
        [ | | destruct (handle_parsing_errors cfg) eqn:Hhandle;
              [ destruct guidance | ] ] ]
  | destruct (lookup_tool _ _ _ tools) as [found|] eqn:Hlookup;
    [ destruct (execute _ _ found _ _) as [[out|failure] w'] eqn:Hexec | ]
  | | | ].

(** Every transition out of a state that is not terminal uses up budget. *)
Lemma step_spends_budget (st : State) :
  result_of st = None -> budget (step st) < budget st.
Proof.
  intro Hlive. unfold Loop.result_of in Hlive.
  step_cases st; try discriminate;
    unfold Loop.budget; simpl; try rewrite Hphase;
    try apply Nat.leb_le in Hcap; try apply Nat.leb_gt in Hcap; lia.
Qed.

(** A terminal state stays as it is. *)
Lemma step_terminal (st : State) (r : Result Input) :
  result_of st = Some r -> step st = st.
Proof.
  unfold Loop.result_of, Loop.step.
  destruct (phase _ _ st); intro E; try discriminate; reflexivity.
Qed.

Lemma iterate_terminal (k : nat) (st : State) (r : Result Input) :
  result_of st = Some r -> iterate k st = st.
Proof.
  intro E. induction k as [|k IH]; simpl; [reflexivity|].
  rewrite (step_terminal st r E). exact IH.
Qed.

Lemma iterate_step (k : nat) :
  forall st : State, iterate (S k) st = step (iterate k st).
Proof.
  induction k as [|k IH]; intro st; [reflexivity|].
  change (iterate (S (S k)) st) with (iterate (S k) (step st)).
  rewrite IH. reflexivity.
Qed.

(** A state reached after [k] transitions that is not terminal was reached
    through states that are not terminal. *)
Lemma live_start (k : nat) (st : State) :
  result_of (iterate k st) = None -> result_of st = None.
Proof.
  intro E. destruct (result_of st) as [r|] eqn:R; [|reflexivity].
  rewrite (iterate_terminal k st r R) in E. congruence.
Qed.

(** A run passes through every state that is not terminal. *)
Lemma run_through (k : nat) :
  forall (st : State) (fuel : nat),
    result_of (iterate k st) = None ->
    run (k + fuel) st = run fuel (iterate k st).
Proof.
  induction k as [|k IH]; intros st fuel E; [reflexivity|].
  pose proof (live_start (S k) st E) as L.
  change (run (S (k + fuel)) st = run fuel (iterate k (step st))).
  cbn [Loop.run]. rewrite L. apply IH. exact E.
Qed.

Lemma budget_through (k : nat) :
  forall st : State,
    result_of (iterate k st) = None -> budget (iterate k st) + k <= budget st.
Proof.
  induction k as [|k IH]; intros st E; [simpl; lia|].
  pose proof (live_start (S k) st E) as L.
  pose proof (step_spends_budget st L).
  change (iterate (S k) st) with (iterate k (step st)) in *.
  specialize (IH (step st) E). lia.
Qed.

(** The loop is total: with the budget of a state as fuel it ends. *)
Lemma run_terminates (fuel : nat) :
  forall st : State, budget st <= fuel -> exists r fin, run fuel st = Some (r, fin).
Proof.
  induction fuel as [|fuel IH]; intros st Hfuel; simpl.
  - destruct (result_of st) as [r|] eqn:Hres; [eauto|].
    pose proof (step_spends_budget st Hres). lia.
  - destruct (result_of st) as [r|] eqn:Hres; [eauto|].
    apply IH. pose proof (step_spends_budget st Hres). lia.
Qed.

(** [invoke] always ends: its fuel covers the budget of the first state. *)
Lemma invoke_total (w : World) :
  exists r fin, invoke w = Some (r, fin).
Proof.
  apply run_terminates. unfold Loop.budget, enough. simpl. lia.
Qed.

(** The state a run ends in is one of the states of the machine, and it is
    terminal with the result returned. *)
Lemma run_is_iterate (fuel : nat) :
  forall (st : State) r fin, run fuel st = Some (r, fin) ->
  exists m, fin = iterate m st /\ result_of fin = Some r.
Proof.
  induction fuel as [|fuel IH]; intros st r fin Hrun; simpl in Hrun.
  - destruct (result_of st) eqn:Hres; [|discriminate].
    injection Hrun as -> ->. exists 0. auto.
  - destruct (result_of st) eqn:Hres.
    + injection Hrun as -> ->. exists 0. auto.
    + destruct (IH _ _ _ Hrun) as (m & -> & Hfin). exists (S m). auto.
Qed.

(** The run of a terminal state is that state. *)
Lemma run_terminal (fuel : nat) (st : State) (r : Result Input) :
  result_of st = Some r -> run fuel st = Some (r, st).
Proof. intro E. destruct fuel; simpl; rewrite E; reflexivity. Qed.

(** A tool of the set whose execution raises ends the run: the state after
    carries the failure, and the steps recorded before, no more. *)
Lemma step_tool_raises
    (st : State) (t : Tool World Input) (n : string) (i : Input) (lg : string)
    (failure : string) (w' : World) :
  phase _ _ st = EXECUTING_TOOL n i lg ->
  lookup_tool _ _ n tools = Some t ->
  execute _ _ t i (world _ _ st) = (Raised failure, w') ->
  step st
  = {| phase := RAISED failure; steps := steps _ _ st;
       iterations := iterations _ _ st; completions := completions _ _ st;
       world := w' |}.
Proof.
  intros Hphase Hlookup Hexec. unfold Loop.step.
  rewrite Hphase, Hlookup, Hexec. reflexivity.
Qed.

(** A run that comes to execute a tool whose execution raises ends with the
    failure raised by [invoke]. *)
Lemma run_tool_raises
    (st0 : State) (k : nat) (t : Tool World Input) (n : string) (i : Input)
    (lg failure : string) (w' : World) (fuel : nat) :
  let st := iterate k st0 in
  phase _ _ st = EXECUTING_TOOL n i lg ->
  lookup_tool _ _ n tools = Some t ->
  execute _ _ t i (world _ _ st) = (Raised failure, w') ->
  budget st0 <= fuel ->
  run fuel st0
  = Some (Raises failure,
          {| phase := RAISED failure; steps := steps _ _ st;
             iterations := iterations _ _ st; completions := completions _ _ st;
             world := w' |}).
Proof.
  intros st Hphase Hlookup Hexec Hfuel.
  assert (Hlive : result_of st = None)
    by (unfold Loop.result_of; rewrite Hphase; reflexivity).
  pose proof (budget_through k st0 Hlive) as Hb. fold st in Hb.
  assert (H2 : 2 <= budget st)
    by (unfold Loop.budget; rewrite Hphase; lia).
  replace fuel with (k + S (fuel - k - 1)) by lia.
  rewrite (run_through k st0 _ Hlive). fold st.
  cbn [Loop.run]. rewrite Hlive.
  rewrite (step_tool_raises st t n i lg failure w' Hphase Hlookup Hexec).
  apply run_terminal. reflexivity.
Qed.

(** With parse failures handled, a failure on its way out of [invoke] is
    the failure of a tool the run came to execute. *)
Lemma raised_by_a_tool (st0 : State) (m : nat) :
  handle_parsing_errors cfg = true ->
  result_of st0 = None ->
  forall failure,
    phase _ _ (iterate m st0) = RAISED failure ->
    exists j n t i lg,
      phase _ _ (iterate j st0) = EXECUTING_TOOL n i lg /\
      lookup_tool _ _ n tools = Some t /\
      fst (execute _ _ t i (world _ _ (iterate j st0))) = Raised failure.
Proof.
  intros Hon Hstart. induction m as [|m IH]; intros f Hraised.
  - simpl in Hraised. unfold Loop.result_of in Hstart.
    rewrite Hraised in Hstart. discriminate.
  - rewrite iterate_step in Hraised.
    remember (iterate m st0) as st eqn:Hst.
    revert Hraised. step_cases st; cbn [phase set_phase record_step requested set_world];
      try rewrite Hphase; try discriminate; try congruence.
    + intro E. injection E as <-.
      exists m. do 4 eexists. rewrite <- Hst.
      split; [exact Hphase|]. split; [exact Hlookup|].
      rewrite Hexec. reflexivity.
    + intro E. apply IH. exact E.
Qed.



(** An action naming no tool of the set is answered with an observation. *)
Lemma unknown_tool_is_observed (st : State) (n : string) (i : Input) (lg : string) :
  phase _ _ st = EXECUTING_TOOL n i lg ->
  lookup_tool _ _ n tools = None ->
  step st
  = record_step World Input st (Invoke n i) lg
      (invalid_tool World Input tools n) (world _ _ st).
Proof.
  intros Hphase Hlookup. unfold Loop.step. rewrite Hphase, Hlookup. reflexivity.
Qed.

Lemma step_keeps_counted (st : State) :
  counted World Input cfg st -> counted World Input cfg (step st).
Proof.
  unfold counted. intros (Hlen & Hle & Hex).
  step_cases st;
    cbn [phase set_phase record_step requested set_world iterations steps];
    rewrite ?length_app; cbn [length];
    try rewrite Hphase in Hex;
    try apply Nat.leb_gt in Hcap;
    repeat split; try rewrite Hphase; try exact I; lia.
Qed.

(** A run never counts more steps than the cap, and records the steps it
    counts. *)
Lemma steps_within_cap (m : nat) (w : World) :
  let st := iterate m (initial w) in
  length (steps _ _ st) = iterations _ _ st /\
  iterations _ _ st <= max_iterations cfg.
Proof.
  cbv zeta.
  assert (H : counted World Input cfg (iterate m (initial w))).
  { induction m as [|m IH].
    - unfold counted. simpl. repeat split; lia.
    - rewrite iterate_step. apply step_keeps_counted. exact IH. }
  destruct H as (Hlen & Hle & _). auto.
Qed.

End Executor.

End LoopSpec.

(** ** The tools of the repository inside the executor *)
Module AgentsSpec.
Import Text Exc Unicode Loop Agents.

#[local] Existing Instance Demo.httpx.
#[local] Existing Instance Demo.faiss.

#[local] Abbreviation invoke := (Loop.invoke World ToolInput).
#[local] Abbreviation iterate := (Loop.iterate World ToolInput).
#[local] Abbreviation initial := (Loop.initial World ToolInput).
#[local] Abbreviation render := (Loop.render World ToolInput).





(** A tool that returns is observed, and a model that answers next ends
    the run with its answer. *)
Example probe_then_answer :
  option_map fst
    (invoke (agent_executor 15)
       (Demo.answering_after 1 "Action: http_tool on the flag server") [HttpTool]
       "probe the host" Demo.world)
  = Some (Answer "done"
            [{| action := Invoke "http_tool"
                            (HttpArgs (Http.HttpInput_of_url "http://localhost:8080/"));
                log := "Action: http_tool on the flag server";
                observation :=
                  "Headers:" ++ nl ++ "Headers({Content-type: text/plain})" ++ nl ++ nl
                  ++ "Body:" ++ nl ++ "Hello, world!" |}]).
Proof. vm_compute. reflexivity. Qed.

(** The search tool without its index, in the same executor: the failure
    of the load is raised by [invoke]. *)
Example missing_index_raises_out_of_invoke :
  option_map fst
    (invoke (agent_executor 15) (Demo.repeating "Action: custom_search") basic_tools
       "find the fetch" Demo.world)
  = Some (Raises "could not open ../vector_databases/juice_shop_faiss/index.faiss for reading").
Proof. vm_compute. reflexivity. Qed.

(** A tool the model names but the set does not hold is answered with an
    observation, and the run goes on to the cap. *)
Example unknown_tool_goes_on :
  option_map
    (fun x => (match fst x with IterationLimit _ => true | _ => false end,
               map (observation _) (steps _ _ (snd x))))
    (invoke (agent_executor 1) (Demo.repeating "Action: custom_search") [HttpTool]
       "find the fetch" Demo.world)
  = Some (true, ["custom_search is not a valid tool, try one of [http_tool]."]).
Proof. vm_compute. reflexivity. Qed.

End AgentsSpec.

(** ** scripts/agentic_basic.py: the search tool *)
Module SearchSpec.
Import Text Exc Files Search.



#[local] Existing Instance Demo.faiss.

Example index_not_found :
  _run "fetch" Demo.disk
  = (Raised "could not open ../vector_databases/juice_shop_faiss/index.faiss for reading",
     Demo.disk).
Proof. vm_compute. reflexivity. Qed.

End SearchSpec.

(** ** The HTTP probe tool, used several times *)
Module HttpUseSpec.
Import Text Exc Unicode Http HttpUse.

(** The twenty-six letters have the upper case of their capitals. *)
Lemma capital_same_upper (x : N) :
  (65 <= x)%N -> (x <= 90)%N ->
  mapped uppercase (x + 32)%N = mapped uppercase x.
Proof.
  intros Hlo Hhi.
  assert (Hall : forallb (fun n => str_eqb (mapped uppercase (N.of_nat n + 32)%N)
                                     (mapped uppercase (N.of_nat n)))
                   (seq 65 26) = true) by (vm_compute; reflexivity).
  rewrite forallb_forall in Hall.
  specialize (Hall (N.to_nat x)).
  rewrite N2Nat.id in Hall.
  apply SpellingSpec.str_eqb_eq. apply Hall. apply in_seq. lia.
Qed.

Lemma lower_ascii_same_upper (x y : N) :
  lower_ascii x = lower_ascii y -> mapped uppercase x = mapped uppercase y.
Proof.
  unfold lower_ascii.
  destruct (N.leb 65 x && N.leb x 90)%bool eqn:Ex;
    destruct (N.leb 65 y && N.leb y 90)%bool eqn:Ey; intro E.
  - f_equal. lia.
  - subst y. apply andb_prop in Ex as [A B].
    apply N.leb_le in A. apply N.leb_le in B.
    symmetry. apply capital_same_upper; assumption.
  - subst x. apply andb_prop in Ey as [A B].
    apply N.leb_le in A. apply N.leb_le in B.
    apply capital_same_upper; assumption.
  - f_equal. exact E.
Qed.

Lemma eq_ignore_case_same_upper (a : str) :
  forall b, eq_ignore_case a b = true -> upper a = upper b.
Proof.
  induction a as [|x a IH]; intros [|y b] E; simpl in *; try discriminate; auto.
  apply andb_prop in E as [Exy Eab]. apply N.eqb_eq in Exy.
  unfold upper in *. cbn [flat_map]. f_equal.
  - apply lower_ascii_same_upper. exact Exy.
  - apply IH. exact Eab.
Qed.

(** X1: the tool reads its method up to the case of its letters only: two
    methods that differ in case alone lead to the same request and the same
    result. *)
Theorem run_ignores_case_of_method `{Httpx}
    (url : string) (m m' : str) (data : option dict) (sent : Trace) :
  eq_ignore_case m m' = true ->
  _run url m data sent = _run url m' data sent.
Proof.
  intro E. unfold _run. rewrite (eq_ignore_case_same_upper _ _ E). reflexivity.
Qed.

(** X2: however many times the tool is invoked, and whether an invocation
    returns or raises, each invocation puts exactly one request on the
    wire, in the order of the invocations, after the requests already
    there: nothing is retried, merged or dropped. *)
Theorem trace_after_one_request_each `{Httpx}
    (inputs : list HttpInput) (sent : Trace) :
  trace_after inputs sent = (sent ++ map call_of inputs)%list.
Proof.
  revert sent. induction inputs as [|a rest IH]; intro sent; simpl.
  - rewrite app_nil_r. reflexivity.
  - rewrite IH, HttpSpec.run_unfold. simpl. rewrite <- app_assoc. reflexivity.
Qed.

(** A text of headers without line feed ends at the first blank line of the
    output: the output splits in one way only. *)
Lemma layout_injective (h1 : string) :
  forall h2 b1 b2,
    no_line_feed h1 = true -> no_line_feed h2 = true ->
    h1 ++ nl ++ nl ++ "Body:" ++ nl ++ b1 = h2 ++ nl ++ nl ++ "Body:" ++ nl ++ b2 ->
    h1 = h2 /\ b1 = b2.
Proof.
  induction h1 as [|c h1 IH]; intros [|c' h2] b1 b2 N1 N2 E; simpl in *.
  - injection E as E. auto.
  - injection E as Ec E. subst c'.
    apply andb_prop in N2 as [N2 _]. discriminate N2.
  - injection E as Ec E. subst c.
    apply andb_prop in N1 as [N1 _]. discriminate N1.
  - injection E as Ec E. subst c'.
    apply andb_prop in N1 as [_ N1]. apply andb_prop in N2 as [_ N2].
    destruct (IH h2 b1 b2 N1 N2 E) as [-> ->]. auto.
Qed.

(** X3: when the text of the headers holds no line feed (as the [repr] the
    library prints), the text the tool returns determines both parts of
    the response: two invocations that return the same text received the
    same headers text and the same body. *)
Theorem output_determines_response `{Httpx}
    (u1 u2 : string) (m1 m2 : str) (d1 d2 : option dict) (s1 s2 : Trace)
    (r1 r2 : Response) :
  answer s1 (chosen_call u1 m1 d1) = Returned r1 ->
  answer s2 (chosen_call u2 m2 d2) = Returned r2 ->
  no_line_feed (str_headers (headers r1)) = true ->
  no_line_feed (str_headers (headers r2)) = true ->
  fst (_run u1 m1 d1 s1) = fst (_run u2 m2 d2 s2) ->
  str_headers (headers r1) = str_headers (headers r2) /\ text r1 = text r2.
Proof.
  intros A1 A2 N1 N2 E. rewrite !HttpSpec.run_unfold in E. simpl in E.
  rewrite A1, A2 in E. injection E as E.
  exact (layout_injective _ _ _ _ N1 N2 E).
Qed.

#[local] Existing Instance Demo.httpx.

Lemma run_ignores_case_of_method_witness :
  _run "http://localhost:8080/" (codes "post") (Some [("id", "7")]) []
  = _run "http://localhost:8080/" (codes "PoSt") (Some [("id", "7")]) [].
Proof.
  exact (run_ignores_case_of_method "http://localhost:8080/" (codes "post")
           (codes "PoSt") (Some [("id", "7")]) [] eq_refl).
Defined.

Lemma output_determines_response_witness :
  let r1 := {| headers := [("Content-type", "text/plain")]; text := "Hello, world!" |} in
  let r2 := {| headers := [("Content-type", "text/plain")]; text := "Hello, world!" |} in
  str_headers (headers r1) = str_headers (headers r2) /\ text r1 = text r2.
Proof.
  intros r1 r2.
  apply (output_determines_response
           "http://localhost:8080/" "http://localhost:8080/"
           (codes "GET") [112; 111; 383; 116]%N
           None (Some [("id", "7")]) [] [] r1 r2);
    vm_compute; reflexivity.
Defined.

Example three_probes :
  trace_after
    [HttpInput_of_url "http://10.255.255.1/";
     {| url := "http://localhost:8080/"; method := [112; 111; 383; 116]%N;
        data := Some [("a", "b")] |};
     {| url := "http://localhost:8080/"; method := codes "OPTIONS";
        data := Some [("a", "b")] |}]
    []
  = [{| call_verb := GET; call_url := "http://10.255.255.1/"; call_data := None;
        call_timeout := None |};
     {| call_verb := POST; call_url := "http://localhost:8080/";
        call_data := Some [("a", "b")]; call_timeout := None |};
     {| call_verb := GET; call_url := "http://localhost:8080/"; call_data := None;
        call_timeout := None |}].
Proof. vm_compute. reflexivity. Qed.

End HttpUseSpec.

(** ** The clone of the repository under analysis *)
Module SetupSpec.
Import Text Exc Proc Setup.

Section Script.
Context `{Git}.

(** The three ways through the block. *)
Lemma fetch_when_present (p : Process Outside) :
  has_repository (disk (outside p)) = true ->
  fetch_repository p
  = (Returned tt,
     {| outside := outside p;
        stdout := (stdout p ++ ["Directory already contains a git repository."])%list |}).
Proof. intro E. unfold fetch_repository. rewrite E. reflexivity. Qed.

Lemma fetch_when_cloned (p : Process Outside) (d : Files.Disk) :
  has_repository (disk (outside p)) = false ->
  clone_from repo_url repo_path (disk (outside p)) = (Returned tt, d) ->
  fetch_repository p
  = (Returned tt,
     {| outside := {| disk := d;
                      clones := (clones (outside p) ++ [(repo_url, repo_path)])%list |};
        stdout := (stdout p ++ [("Repository cloned into: " ++ repo_path)%string])%list |}).
Proof.
  intros E C. unfold fetch_repository. rewrite E.
  unfold try_except, bind, git_clone, on_outside. rewrite C. reflexivity.
Qed.

Lemma fetch_when_clone_fails (p : Process Outside) (d : Files.Disk) (e : string) :
  has_repository (disk (outside p)) = false ->
  clone_from repo_url repo_path (disk (outside p)) = (Raised e, d) ->
  fetch_repository p
  = (if is_Exception e then Returned tt else Raised e,
     {| outside := {| disk := d;
                      clones := (clones (outside p) ++ [(repo_url, repo_path)])%list |};
        stdout := (stdout p
                   ++ (if is_Exception e
                       then [("An error occurred while cloning the repository: "
                              ++ e)%string]
                       else []))%list |}).
Proof.
  intros E C. unfold fetch_repository. rewrite E.
  unfold try_except, bind, git_clone, on_outside. rewrite C.
  destruct (is_Exception e); [reflexivity|].
  cbn. rewrite app_nil_r. reflexivity.
Qed.

(** X5: a clone that fails with an [Exception] is caught: the block
    returns, having reported the failure in one call of [print] whose text
    ends with the text of the failure, however many lines that text has.
    The block raises only what the clone raised past the [except] clause,
    a failure that is no [Exception] (an interrupt from the keyboard), and
    then it has printed nothing.  On the two other paths it returns after
    one call of [print]. *)
Theorem fetch_repository_catches_exceptions (p : Process Outside) :
  let attempt := fst (clone_from repo_url repo_path (disk (outside p))) in
  fst (fetch_repository p)
  = (if has_repository (disk (outside p)) then Returned tt
     else match attempt with
          | Returned _ => Returned tt
          | Raised e => if is_Exception e then Returned tt else Raised e
          end) /\
  stdout (snd (fetch_repository p))
  = (stdout p
     ++ (if has_repository (disk (outside p))
         then ["Directory already contains a git repository."]
         else match attempt with
              | Returned _ => ["Repository cloned into: ./repo"]
              | Raised e =>
                  if is_Exception e
                  then [("An error occurred while cloning the repository: " ++ e)%string]
                  else []
              end))%list.
Proof.
  cbv zeta.
  destruct (has_repository (disk (outside p))) eqn:E.
  - rewrite (fetch_when_present p E). split; reflexivity.
  - destruct (clone_from repo_url repo_path (disk (outside p))) as [[[]|e] d] eqn:C.
    + rewrite (fetch_when_cloned p d E C). split; reflexivity.
    + rewrite (fetch_when_clone_fails p d e E C). cbn [fst snd stdout].
      destruct (is_Exception e); split; reflexivity.
Qed.

(** X6: git is asked for a clone exactly when [./repo] or [./repo/.git] is
    not a directory, once, with the URL of the repository and [./repo] as
    target; when both are directories the disk is left as it is. *)
Theorem fetch_repository_clones_when_absent (p : Process Outside) :
  let after := outside (snd (fetch_repository p)) in
  clones after
  = (clones (outside p)
     ++ (if isdir "./repo" (disk (outside p)) && isdir "./repo/.git" (disk (outside p))
         then []
         else [("https://github.com/juice-shop/juice-shop.git", "./repo")]))%list /\
  disk after
  = (if isdir "./repo" (disk (outside p)) && isdir "./repo/.git" (disk (outside p))
     then disk (outside p)
     else snd (clone_from "https://github.com/juice-shop/juice-shop.git" "./repo"
                 (disk (outside p)))).
Proof.
  cbv zeta.
  change (isdir "./repo" (disk (outside p)) && isdir "./repo/.git" (disk (outside p)))
    with (has_repository (disk (outside p))).
  change "https://github.com/juice-shop/juice-shop.git" with repo_url.
  change "./repo" with repo_path.
  destruct (has_repository (disk (outside p))) eqn:E.
  - rewrite (fetch_when_present p E). simpl. rewrite app_nil_r. auto.
  - destruct (clone_from repo_url repo_path (disk (outside p))) as [[[]|e] d] eqn:C.
    + rewrite (fetch_when_cloned p d E C). auto.
    + rewrite (fetch_when_clone_fails p d e E C). auto.
Qed.

(** X7: when a clone that returns leaves a repository behind, running the
    block again after a run that found or cloned the repository does not
    clone again and does not touch the disk: it only reports that the
    repository is there. *)
Theorem fetch_repository_twice (p : Process Outside) :
  (forall d d', clone_from repo_url repo_path d = (Returned tt, d') ->
                has_repository d' = true) ->
  has_repository (disk (outside p)) = true
  \/ fst (clone_from repo_url repo_path (disk (outside p))) = Returned tt ->
  let once := snd (fetch_repository p) in
  let twice := snd (fetch_repository once) in
  outside twice = outside once /\
  stdout twice
  = (stdout once ++ ["Directory already contains a git repository."])%list.
Proof.
  intros Hpost Hcase once twice.
  assert (Hthere : has_repository (disk (outside once)) = true).
  { unfold once. destruct (has_repository (disk (outside p))) eqn:E.
    - rewrite (fetch_when_present p E). exact E.
    - destruct Hcase as [Hc|Hc]; [discriminate|].
      destruct (clone_from repo_url repo_path (disk (outside p))) as [[[]|e] d] eqn:C;
        [|discriminate].
      rewrite (fetch_when_cloned p d E C). simpl. exact (Hpost _ _ C). }
  unfold twice. rewrite (fetch_when_present once Hthere). split; reflexivity.
Qed.

End Script.

#[local] Existing Instance Fixtures.git.

Lemma fetch_repository_twice_witness :
  let once := snd (fetch_repository (Fixtures.fresh_process Fixtures.empty_disk)) in
  let twice := snd (fetch_repository once) in
  outside twice = outside once /\
  stdout twice
  = (stdout once ++ ["Directory already contains a git repository."])%list.
Proof.
  apply (fetch_repository_twice (Fixtures.fresh_process Fixtures.empty_disk)).
  - intros d d' E. simpl in E. injection E as <-. reflexivity.
  - right. reflexivity.
Defined.

Example first_run_clones :
  fetch_repository (Fixtures.fresh_process Fixtures.empty_disk)
  = (Returned tt,
     {| outside := {| disk := Fixtures.cloned_disk;
                      clones := [(repo_url, "./repo")] |};
        stdout := ["Repository cloned into: ./repo"] |}).
Proof. reflexivity. Qed.

Example offline_run_goes_on :
  @fetch_repository Fixtures.git_offline (Fixtures.fresh_process Fixtures.empty_disk)
  = (Returned tt,
     {| outside := {| disk := Fixtures.empty_disk;
                      clones := [(repo_url, "./repo")] |};
        stdout := [("An error occurred while cloning the repository: "
                    ++ "Cmd('git') failed due to: exit code(128)" ++ nl
                    ++ "  cmdline: git clone -v -- https://github.com/juice-shop/juice-shop.git ./repo"
                    ++ nl ++ "  stderr: 'fatal: unable to access the remote'")%string] |}).
Proof. reflexivity. Qed.

Example interrupted_run_stops :
  @fetch_repository Fixtures.git_interrupted (Fixtures.fresh_process Fixtures.empty_disk)
  = (Raised "KeyboardInterrupt",
     {| outside := {| disk := Fixtures.empty_disk;
                      clones := [(repo_url, "./repo")] |};
        stdout := [] |}).
Proof. reflexivity. Qed.

End SetupSpec.

(** ** The report of [analyze_code] *)
Module ReconSpec.
Import Text Exc Proc Recon.

Section Analyze.
Variables Outside Input : Type.
Variable str_input : Input -> string.
Variable invoke : string -> bool -> M Outside (Response Input).

#[local] Abbreviation print_steps := (print_steps Outside Input str_input).
#[local] Abbreviation step_lines := (step_lines Input str_input).
#[local] Abbreviation analyze_code := (analyze_code Outside Input str_input invoke).

Lemma print_steps_spec (steps : list (AgentAction Input * string)) :
  forall (i : nat) (p : Process Outside),
    print_steps i steps p
    = (Returned tt,
       {| outside := outside p; stdout := (stdout p ++ step_lines i steps)%list |}).
Proof.
  induction steps as [|[action observation] rest IH]; intros i p; simpl.
  - rewrite app_nil_r. destruct p; reflexivity.
  - cbn [Recon.print_steps].
    unfold bind at 1. unfold print at 1. unfold bind at 1. unfold print at 1.
    unfold bind at 1. unfold print at 1. unfold bind at 1. unfold print at 1.
    cbn [outside stdout]. rewrite IH. cbn [outside stdout].
    rewrite <- !app_assoc. reflexivity.
Qed.

Lemma step_lines_length (steps : list (AgentAction Input * string)) :
  forall i, length (step_lines i steps) = 4 * length steps.
Proof.
  induction steps as [|[action observation] rest IH]; intro i; simpl.
  - reflexivity.
  - rewrite IH. lia.
Qed.

(** What [analyze_code] leaves behind once the executor has returned. *)
Lemma analyze_code_returned (input_code : string) (p : Process Outside)
    (r : Response Input) (o : Outside) :
  invoke input_code true (outside p) = (Returned r, o) ->
  analyze_code input_code p
  = (Returned r,
     {| outside := o;
        stdout := (stdout p
                   ++ match intermediate_steps r with
                      | Some (first :: rest) =>
                          (nl ++ brain ++ " Agent Thinking Process:")%string
                            :: times "-"%char 40
                            :: step_lines 1 (first :: rest)
                      | _ => []
                      end)%list |}).
Proof.
  intro E. unfold Recon.analyze_code, bind, on_outside. rewrite E.
  cbn beta iota.
  destruct (intermediate_steps r) as [[|first rest]|].
  - cbn. rewrite app_nil_r. reflexivity.
  - unfold print at 1. unfold print at 1. cbn beta iota. cbn [outside stdout].
    rewrite print_steps_spec. cbn [outside stdout]. unfold ret.
    rewrite <- !app_assoc. reflexivity.
  - cbn. rewrite app_nil_r. reflexivity.
Qed.

(** X8: [analyze_code] hands back the response of the executor as it
    received it, and what the executor raises.  It prints nothing when the
    executor raised, when the response has no intermediate steps, or when
    it has an empty list of them; otherwise it adds two heading entries and
    four entries for each step to what was printed before, which it
    keeps. *)
Theorem analyze_code_reports (input_code : string) (p : Process Outside) :
  match invoke input_code true (outside p) with
  | (Raised e, o) =>
      analyze_code input_code p = (Raised e, {| outside := o; stdout := stdout p |})
  | (Returned r, o) =>
      fst (analyze_code input_code p) = Returned r /\
      outside (snd (analyze_code input_code p)) = o /\
      exists report,
        stdout (snd (analyze_code input_code p)) = (stdout p ++ report)%list /\
        length report
        = match intermediate_steps r with
          | Some steps => if Nat.eqb (length steps) 0 then 0 else 2 + 4 * length steps
          | None => 0
          end
  end.
Proof.
  destruct (invoke input_code true (outside p)) as [[r|e] o] eqn:E.
  - rewrite (analyze_code_returned _ _ _ _ E). cbn [fst snd outside stdout].
    repeat split.
    eexists. split; [reflexivity|].
    destruct (intermediate_steps r) as [[|first rest]|]; try reflexivity.
    cbn [length Nat.eqb]. rewrite step_lines_length. cbn [length]. lia.
  - unfold Recon.analyze_code, bind, on_outside. rewrite E. reflexivity.
Qed.

Lemma step_lines_nth (steps : list (AgentAction Input * string)) :
  forall (i k : nat) (action : AgentAction Input) (observation : string),
    nth_error steps k = Some (action, observation) ->
    nth_error (step_lines i steps) (4 * k)
    = Some ("Step " ++ str_nat (i + k) ++ ":") /\
    nth_error (step_lines i steps) (4 * k + 1)
    = Some ("  Action: " ++ tool action ++ " - " ++ str_input (tool_input action)) /\
    nth_error (step_lines i steps) (4 * k + 2)
    = Some ("  Observation: " ++ observation) /\
    nth_error (step_lines i steps) (4 * k + 3) = Some "".
Proof.
  induction steps as [|[a o] rest IH]; intros i k action observation Hk.
  - destruct k; discriminate.
  - destruct k as [|k].
    + injection Hk as -> ->. rewrite Nat.add_0_r. simpl. repeat split; reflexivity.
    + simpl in Hk. destruct (IH (S i) k action observation Hk) as (H0 & H1 & H2 & H3).
      replace (4 * S k) with (S (S (S (S (4 * k))))) by lia.
      replace (i + S k) with (S i + k) by lia.
      cbn [Recon.step_lines nth_error Nat.add]. auto.
Qed.

(** X9: the steps are reported in their order and numbered from 1: after
    the two heading entries, the entries of step [k] (counted from 0) start
    at place [2 + 4k] of the report with the heading of number [k + 1],
    followed by the tool with its input, the observation, and an empty
    entry. *)
Theorem analyze_code_numbers_steps
    (input_code : string) (p : Process Outside) (r : Response Input) (o : Outside)
    (steps : list (AgentAction Input * string)) (k : nat)
    (action : AgentAction Input) (observation : string) :
  invoke input_code true (outside p) = (Returned r, o) ->
  intermediate_steps r = Some steps ->
  nth_error steps k = Some (action, observation) ->
  let out := stdout (snd (analyze_code input_code p)) in
  let place := length (stdout p) + 2 + 4 * k in
  nth_error out place = Some ("Step " ++ str_nat (S k) ++ ":") /\
  nth_error out (place + 1)
  = Some ("  Action: " ++ tool action ++ " - " ++ str_input (tool_input action)) /\
  nth_error out (place + 2) = Some ("  Observation: " ++ observation) /\
  nth_error out (place + 3) = Some "".
Proof.
  intros E Hsteps Hk out place. unfold out, place.
  rewrite (analyze_code_returned _ _ _ _ E), Hsteps. simpl snd. simpl stdout.
  destruct steps as [|first rest]; [destruct k; discriminate|].
  destruct (step_lines_nth (first :: rest) 1 k action observation Hk)
    as (H0 & H1 & H2 & H3).
  assert (Hat : forall (n : nat) (header1 header2 : string) (l : list string),
             nth_error (stdout p ++ header1 :: header2 :: l)
               (length (stdout p) + 2 + n)
             = nth_error l n).
  { intros n h1 h2 l. rewrite nth_error_app2 by lia.
    replace (length (stdout p) + 2 + n - length (stdout p)) with (S (S n)) by lia.
    reflexivity. }
  rewrite <- !Nat.add_assoc. rewrite !Nat.add_assoc.
  repeat split.
  - rewrite Hat. exact H0.
  - replace (length (stdout p) + 2 + 4 * k + 1)
      with (length (stdout p) + 2 + (4 * k + 1)) by lia.
    rewrite Hat. exact H1.
  - replace (length (stdout p) + 2 + 4 * k + 2)
      with (length (stdout p) + 2 + (4 * k + 2)) by lia.
    rewrite Hat. exact H2.
  - replace (length (stdout p) + 2 + 4 * k + 3)
      with (length (stdout p) + 2 + (4 * k + 3)) by lia.
    rewrite Hat. exact H3.
Qed.

End Analyze.

Lemma analyze_code_numbers_steps_witness :
  let p := {| outside := tt; stdout := ["Standard ReAct Agent:"] |} in
  let out :=
    stdout (snd (analyze_code unit string (fun s => s) Fixtures.invoke
                   "Analyze ./repo/" p)) in
  nth_error out 7 = Some "Step 2:" /\
  nth_error out 8 = Some "  Action: view_file - ./repo/app.js" /\
  nth_error out 9 = Some ("  Observation: " ++ Demo.app_js) /\
  nth_error out 10 = Some "".
Proof.
  exact (analyze_code_numbers_steps unit string (fun s => s) Fixtures.invoke
           "Analyze ./repo/" {| outside := tt; stdout := ["Standard ReAct Agent:"] |}
           _ tt Fixtures.two_steps 1 _ _ eq_refl eq_refl eq_refl).
Defined.

Example report_of_two_steps :
  stdout (snd (analyze_code unit string (fun s => s) Fixtures.invoke "Analyze ./repo/"
                 {| outside := tt; stdout := [] |}))
  = [nl ++ brain ++ " Agent Thinking Process:";
     "----------------------------------------";
     "Step 1:"; "  Action: list_directory - ./repo"; "  Observation: app.js"; "";
     "Step 2:"; "  Action: view_file - ./repo/app.js";
     "  Observation: " ++ Demo.app_js; ""].
Proof. reflexivity. Qed.

End ReconSpec.

(** ** The names of scripts/agentic_basic.py *)
Module ScriptSpec.
Import Text Exc Script.

(** A statement that fails for a reason of its own ends the run there, at
    a line before 184; otherwise the run goes on to the next statement. *)
Ltac statement fails l :=
  let E := fresh "E" in
  destruct (fails l) eqn:E; cbn;
  [ split; [reflexivity|]; split; [reflexivity|]; split; [reflexivity|];
    let Hnone := fresh "Hnone" in
    intro Hnone; rewrite Hnone in E by lia; discriminate E
  | ].

Ltac line_by_line fails ls :=
  match ls with
  | nil => idtac
  | ?l :: ?rest => statement fails l; line_by_line fails rest
  end.

Section Run.
Variable fails : nat -> option string.

(** X10: executed top to bottom, as a script or as an imported module, and
    whichever of its statements fail for reasons of their own,
    [scripts/agentic_basic.py] never runs to its end and never binds
    [agent_executor] or [analyze_code]: line 184 reads the name
    [ChatPromptTemplate], which no statement before it binds.  When nothing
    fails earlier, the run stops at line 184 with that NameError. *)
Theorem agentic_basic_stops_at_line_184 (as_main : bool) :
  let '(r, i) := agentic_basic fails as_main start in
  raised r = true /\
  is_bound "agent_executor" i = false /\
  is_bound "analyze_code" i = false /\
  ((forall l, l < 184 -> fails l = None) ->
   r = Raised "NameError: name 'ChatPromptTemplate' is not defined"
   /\ line i = 184).
Proof.
  unfold agentic_basic, from_import, class_def, def, assign, call, at_line,
    evaluate, bind_names, bind_name, reads, read, is_bound, bind, ret, start.
  cbn [bound line existsb].
  line_by_line fails
    (1 :: 2 :: 3 :: 4 :: 5 :: 6 :: 7 :: 8 :: 9 :: 10 :: 11 :: 12 :: 15 :: 18 :: 22
       :: 46 :: 47 :: 53 :: 120 :: nil).
  repeat split; reflexivity.
Qed.

End Run.

Lemma agentic_basic_stops_at_line_184_witness :
  let '(r, i) := agentic_basic (fun _ => None) true start in
  raised r = true /\
  is_bound "agent_executor" i = false /\
  is_bound "analyze_code" i = false /\
  r = Raised "NameError: name 'ChatPromptTemplate' is not defined" /\
  line i = 184.
Proof.
  pose proof (agentic_basic_stops_at_line_184 (fun _ => None) true) as T.
  cbv in T |- *.
  destruct T as (T1 & T2 & T3 & T4). repeat split; try assumption; apply T4; reflexivity.
Defined.

(** With the missing import in place the same statements run to the end. *)
Example agentic_basic_with_the_import :
  let patched :=
    (from_import (fun _ => None) 3 ["ChatPromptTemplate"; "FewShotChatMessagePromptTemplate"] ;;
     agentic_basic (fun _ => None) false)%exc in
  raised (fst (patched start)) = false
  /\ is_bound "agent_executor" (snd (patched start)) = true.
Proof. split; reflexivity. Qed.

End ScriptSpec.

(** ** The report beside the quiet variant *)
Module ReconVariants.
Import Text Exc Proc Recon.

(** X11: the two scripts' [analyze_code] differ in the report only: on the
    same input and from the same state they call the executor once with
    the same arguments, return the same response or raise the same
    failure, and leave the same outside; the variant of
    [scripts/langgraph_react_ssrf.py] prints nothing. *)
Theorem analyze_code_quiet_differs_in_report_only
    (Outside Input : Type) (str_input : Input -> string)
    (invoke : string -> bool -> M Outside (Response Input))
    (input_code : string) (p : Process Outside) :
  let loud := analyze_code Outside Input str_input invoke input_code p in
  let quiet := analyze_code_quiet Outside Input invoke input_code p in
  fst quiet = fst loud /\
  outside (snd quiet) = outside (snd loud) /\
  stdout (snd quiet) = stdout p /\
  quiet = on_outside (invoke input_code true) p.
Proof.
  cbv zeta.
  assert (Hquiet : analyze_code_quiet Outside Input invoke input_code p
                   = on_outside (invoke input_code true) p).
  { unfold analyze_code_quiet, bind, ret.
    destruct (on_outside (invoke input_code true) p) as [[r|e] p']; reflexivity. }
  rewrite Hquiet.
  pose proof (ReconSpec.analyze_code_returned Outside Input str_input invoke
                input_code p) as Hloud.
  unfold on_outside in *.
  destruct (invoke input_code true (outside p)) as [[r|e] o] eqn:E.
  - rewrite (Hloud r o eq_refl). repeat split; reflexivity.
  - unfold analyze_code, bind, on_outside. rewrite E. repeat split; reflexivity.
Qed.

End ReconVariants.

